(** * update_taipei_evaluations: the merge / reconciliation pipeline

    A shallow embedding of [scripts/update_taipei_evaluations.py] and the
    properties of its staleness gate, source loaders, reconciler and
    snapshot writer.

    Modelling conventions.
    - A Python [str] is the list of its Unicode code points ([str]); the
      literals of the script are written as UTF-8 text and decoded by [u].
    - Values of type [Any] (JSON data) are [pyval]; a [dict] whose iteration
      order is observed is an association list, a [dict] used only through
      lookups is a [gmap].
    - Library functions whose code is not part of the repository (the
      Unicode decimal-digit table, [float()], [repr], [json.dumps],
      [datetime.fromisoformat]) are the fields of the class [Builtins]:
      every theorem holds for every implementation of them.
      [Reference.builtins] is an instance used to run the examples.
    - The file system, the process environment, the clock and the HTTP
      endpoint are the fields of [World].  What [json.load] and
      [csv.DictReader] return on a file is part of the file's description.
    - Exceptions are explicit: a computation returns [Ok], [Raise] or
      [OutOfFuel] (the [while True] loop of the remote loader is run with
      fuel).
    - The previous output document and the remote payload are modelled at
      the shape the script reads them with (the keys it [get]s), at the types
      the source annotates. *)

From Stdlib Require Import ZArith NArith List String Ascii Floats Uint63 DecimalString DecimalPos Lia.
From stdpp Require Import gmap list sorting.

Local Open Scope Z_scope.
Set Warnings "-register-all".

(* ================================================================== *)
(** * Strings *)

Module Str.

(** A Python string: its code points. *)
Definition str : Type := list N.

(** Decoding of the UTF-8 bytes of a source literal. *)
Fixpoint utf8_decode (bs : list N) : str :=
  match bs with
  | [] => []
  | b0 :: r0 =>
      if (b0 <? 128)%N then b0 :: utf8_decode r0 else
      match r0 with
      | [] => []
      | b1 :: r1 =>
          if (b0 <? 224)%N
          then ((b0 - 192) * 64 + (b1 - 128))%N :: utf8_decode r1 else
          match r1 with
          | [] => []
          | b2 :: r2 =>
              if (b0 <? 240)%N
              then ((b0 - 224) * 4096 + (b1 - 128) * 64 + (b2 - 128))%N
                     :: utf8_decode r2 else
              match r2 with
              | [] => []
              | b3 :: r3 =>
                  ((b0 - 240) * 262144 + (b1 - 128) * 4096
                   + (b2 - 128) * 64 + (b3 - 128))%N :: utf8_decode r3
              end
          end
      end
  end.

Definition u (s : string) : str :=
  utf8_decode (List.map N_of_ascii (list_ascii_of_string s)).

(** [Py_UNICODE_ISSPACE]: the code points [str.strip], [int()] and the
    regular-expression class [\s] treat as white space. *)
Definition isspace (c : N) : bool :=
  ((9 <=? c) && (c <=? 13) || (28 <=? c) && (c <=? 32)
   || (c =? 133) || (c =? 160) || (c =? 5760)
   || (8192 <=? c) && (c <=? 8202)
   || (c =? 8232) || (c =? 8233) || (c =? 8239) || (c =? 8287)
   || (c =? 12288))%N.

Fixpoint lstrip (s : str) : str :=
  match s with
  | c :: r => if isspace c then lstrip r else s
  | [] => []
  end.

Definition rstrip (s : str) : str := rev (lstrip (rev s)).

(** [s.strip()] *)
Definition strip (s : str) : str := rstrip (lstrip s).

(** [s.replace(a, b)] for one-character [a] and [b]. *)
Definition replace (a b : N) (s : str) : str :=
  List.map (fun c => if (c =? a)%N then b else c) s.

(** [s1 == s2] *)
Definition eqb (s1 s2 : str) : bool := bool_decide (s1 = s2).

(** [s1 <= s2]: lexicographic on code points. *)
Fixpoint leb (s1 s2 : str) : bool :=
  match s1, s2 with
  | [], _ => true
  | _ :: _, [] => false
  | c1 :: r1, c2 :: r2 =>
      if (c1 <? c2)%N then true
      else if (c2 <? c1)%N then false
      else leb r1 r2
  end.

(** The decimal numeral of an integer, as [str(int)] prints it. *)
Definition of_Z (z : Z) : str :=
  List.map N_of_ascii (list_ascii_of_string (NilZero.string_of_int (Z.to_int z))).

(** [str(n).zfill(w)] for a natural number [n]. *)
Definition zfill (w : nat) (n : Z) : str :=
  let d := of_Z n in repeat 48%N (w - length d) ++ d.

Definition LF : N := 10.
Definition SPACE : N := 32.
Definition PLUS : N := 43.
Definition HYPHEN_MINUS : N := 45.
Definition FULL_STOP : N := 46.
Definition COLON : N := 58.
Definition LETTER_T : N := 84.
Definition LOW_LINE : N := 95.
Definition FULLWIDTH_HYPHEN_MINUS : N := 65293.
Definition CJK_YEAR : N := 24180.

End Str.

Import Str.

(* ================================================================== *)
(** * Exceptions *)

Inductive exn : Type :=
| JSONDecodeError   (* json.load on text that is not JSON *)
| HTTPError         (* resp.raise_for_status() *)
| TypeError.        (* subtraction of a naive and an aware datetime *)

(** The outcome of a computation that may raise, or loop. *)
Inductive result (A : Type) : Type :=
| Ok (a : A)
| Raise (e : exn)
| OutOfFuel.

Arguments Ok {A} a.
Arguments Raise {A} e.
Arguments OutOfFuel {A}.

#[global] Instance result_ret : MRet result := fun A a => Ok a.

#[global] Instance result_bind : MBind result := fun A B k m =>
  match m with
  | Ok a => k a
  | Raise e => Raise e
  | OutOfFuel => OutOfFuel
  end.

(* ================================================================== *)
(** * Python values *)

(** A value of type [Any], as [json] produces them. *)
Inductive pyval : Type :=
| PNone
| PBool (b : bool)
| PInt (z : Z)
| PFloat (f : float)
| PStr (s : str)
| PList (l : list pyval)
| PDict (d : list (str * pyval)).

(** A [Dict[str, Any]] whose items are iterated in insertion order. *)
Definition pydict : Type := list (str * pyval).

(** [d.get(k)] *)
Fixpoint dict_get (k : str) (d : pydict) : option pyval :=
  match d with
  | [] => None
  | (k', v) :: r => if Str.eqb k' k then Some v else dict_get k r
  end.

(** [None] for a missing key or value. *)
Definition of_option (o : option str) : pyval :=
  match o with Some s => PStr s | None => PNone end.

Definition or_none (o : option pyval) : pyval :=
  match o with Some v => v | None => PNone end.

(** The truth value of [v] ([if v], [not v], [v or d]). *)
Definition truthy (v : pyval) : bool :=
  match v with
  | PNone => false
  | PBool b => b
  | PInt z => negb (z =? 0)
  | PFloat f => negb (PrimFloat.eqb f 0%float)
  | PStr s => negb (Str.eqb s [])
  | PList l => match l with [] => false | _ => true end
  | PDict d => match d with [] => false | _ => true end
  end.

(** [v or d] *)
Definition py_or (v d : pyval) : pyval := if truthy v then v else d.

(* ================================================================== *)
(** * Dates and times *)

Module Datetime.

(** [datetime.datetime]; [tzinfo] is the UTC offset of a fixed-offset
    [timezone], in microseconds, [None] for a naive value. *)
Record datetime : Type := mk_datetime {
  year : Z; month : Z; day : Z;
  hour : Z; minute : Z; second : Z; microsecond : Z;
  tzinfo : option Z
}.

(** [timedelta(days=d)] and [timedelta(hours=h)], in microseconds. *)
Definition timedelta_days (d : Z) : Z := d * 86400000000.
Definition timedelta_hours (h : Z) : Z := h * 3600000000.

Definition is_leap (y : Z) : bool :=
  (y mod 4 =? 0) && (negb (y mod 100 =? 0) || (y mod 400 =? 0)).

Definition days_before_year (y : Z) : Z :=
  let p := y - 1 in p * 365 + p / 4 - p / 100 + p / 400.

Definition days_in_month (y m : Z) : Z :=
  if m =? 2 then (if is_leap y then 29 else 28)
  else if (m =? 4) || (m =? 6) || (m =? 9) || (m =? 11) then 30
  else 31.

Definition days_before_month (y m : Z) : Z :=
  fold_right Z.add 0 (List.map (days_in_month y) (List.map Z.of_nat (seq 1 (Z.to_nat (m - 1))))).

(** The proleptic Gregorian ordinal of a date (0001-01-01 is day 1). *)
Definition ymd2ord (y m d : Z) : Z :=
  days_before_year y + days_before_month y m + d.

(** Microseconds from 0001-01-01T00:00:00 to the wall-clock fields. *)
Definition wall_us (dt : datetime) : Z :=
  ((((ymd2ord (year dt) (month dt) (day dt) - 1) * 24 + hour dt) * 60
    + minute dt) * 60 + second dt) * 1000000 + microsecond dt.

(** [a - b]: both naive, or both aware (then the UTC offsets are taken
    off first); a naive and an aware operand raise [TypeError]. *)
Definition sub (a b : datetime) : result Z :=
  match tzinfo a, tzinfo b with
  | None, None => Ok (wall_us a - wall_us b)
  | Some oa, Some ob => Ok ((wall_us a - oa) - (wall_us b - ob))
  | _, _ => Raise TypeError
  end.

(** [dt.replace(tzinfo=tz)] and [dt.replace(microsecond=0)] *)
Definition replace_tzinfo (dt : datetime) (tz : Z) : datetime :=
  mk_datetime (year dt) (month dt) (day dt) (hour dt) (minute dt)
              (second dt) (microsecond dt) (Some tz).

Definition replace_microsecond (dt : datetime) (us : Z) : datetime :=
  mk_datetime (year dt) (month dt) (day dt) (hour dt) (minute dt)
              (second dt) us (tzinfo dt).

(** The [+HH:MM] suffix of [isoformat], for an offset of whole minutes
    (the script only prints the offset +08:00). *)
Definition format_offset (off : Z) : str :=
  let a := Z.abs off / 60000000 in
  (if off <? 0 then HYPHEN_MINUS else PLUS)
    :: zfill 2 (a / 60) ++ [COLON] ++ zfill 2 (a mod 60).

(** [dt.isoformat()] for a value whose microsecond is 0. *)
Definition isoformat (dt : datetime) : str :=
  zfill 4 (year dt) ++ [HYPHEN_MINUS] ++ zfill 2 (month dt) ++ [HYPHEN_MINUS]
    ++ zfill 2 (day dt) ++ [LETTER_T] ++ zfill 2 (hour dt) ++ [COLON]
    ++ zfill 2 (minute dt) ++ [COLON] ++ zfill 2 (second dt)
    ++ match tzinfo dt with Some off => format_offset off | None => [] end.

End Datetime.

Import Datetime.

(* ================================================================== *)
(** * Data model *)

(** One row of a CSV file, as [csv.DictReader] yields it: the header's
    field names mapped to the row's texts; a field the row does not have
    is absent. *)
Abbreviation row := (gmap str str).

(** [c.get(k)] on a row. *)
Definition row_get (c : row) (k : string) : option str := c !! u k.

(** An entry of [xy_map]. *)
Record GeoRecord : Type := mk_geo {
  geo_response_address : str;
  geo_lat : option float;
  geo_lng : option float
}.

(** One element of ["centers"] in the output document. *)
Record CenterSnapshot : Type := mk_center {
  id : Z;
  name : str;
  district : str;
  address : str;
  phone : str;
  capacity_approved : str;
  capacity_current : str;
  response_address : option str;
  lat : option float;
  lng : option float;
  evaluation_by_year : list (str * str);
  source_importdate : option str
}.

(** ["meta"] of the output document ([source] and [notes] are constants). *)
Record Meta : Type := mk_meta {
  fetched_at : str;
  last_successful_update : str;
  update_interval_days : Z;
  api_reported_count : option Z;
  unmatched_center_ids_in_base_list : list Z;
  unmatched_count : nat
}.

(** The output document. *)
Record Document : Type := mk_document {
  meta : Meta;
  centers : list CenterSnapshot
}.

(** An element of ["centers"] of the previous output document, as the
    script reads it: [old.get("id")] and
    [old.get("evaluation_by_year", {}) or {}]. *)
Record OldCenter : Type := mk_old {
  old_id : pyval;
  old_evaluation_by_year : option (gmap str str)
}.

(** The previous output document as [json.load] returns it: the two keys
    the script reads, each possibly missing, and whatever else it holds. *)
Record Existing : Type := mk_existing {
  existing_meta : option pydict;
  existing_centers : option (list OldCenter);
  existing_other : pydict
}.

(** [data.json] on disk: its text, and what [json.load] makes of it
    ([None]: the text is not JSON and [json.load] raises). *)
Record JsonFile : Type := mk_json_file {
  text : str;
  loaded : option Existing
}.

(** ["result"] of one page of the remote endpoint. *)
Record ApiResult : Type := mk_result {
  count : option Z;
  limit : option Z;
  offset : option Z;
  results : option (list pydict)
}.

(** The answer to one GET: a non-success status, or a JSON payload with
    its ["result"] (if any). *)
Inductive Response : Type :=
| Status_error
| Payload (result : option ApiResult).

(** [meta] of [fetch_all_records] ([api_url] is a constant). *)
Record ApiMeta : Type := mk_api_meta {
  reported_count : option Z;
  reported_limit : option Z;
  reported_offset : option Z
}.

(** The three places where the script reads the clock. *)
Inductive ClockRead : Type :=
| In_should_run_update
| In_fetched_at
| In_last_successful_update.

(** Everything outside the process. *)
Record World : Type := mk_world {
  environ : gmap str str;
  (** the wall-clock fields [datetime.now(tz)] returns at each read *)
  clock : ClockRead -> datetime;
  data_json : option JsonFile;
  centers_csv : option (list row);
  xy_csv : option (list row);
  (** the answer to the GET with the given [offset] parameter *)
  http_get : Z -> Response
}.

(** How a run ends. *)
Inductive Outcome : Type :=
| Skip                    (* the gate refused the run *)
| Missing_centers_csv
| No_change
| Updated (written : str).  (* the new text of data.json *)

Definition exit_code (o : Outcome) : Z :=
  match o with Missing_centers_csv => 2 | _ => 0 end.

(* ================================================================== *)
(** * Library functions taken as parameters *)

Class Builtins : Type := {
  (** [Py_UNICODE_TODECIMAL] on the code points above 127. *)
  unicode_todecimal : N -> option Z;
  (** [float(s)]; [None] when it raises [ValueError]. *)
  py_float : str -> option float;
  (** [repr(v)] of a float or a container. *)
  py_repr : pyval -> str;
  (** [json.dumps(out, ensure_ascii=False, indent=2, sort_keys=False)] *)
  json_dumps : Document -> str;
  (** [datetime.fromisoformat(s)]; [None] when it raises. *)
  datetime_fromisoformat : str -> option datetime
}.

(* ================================================================== *)
(** * The script *)

Definition API_BASE : str :=
  u "https://data.taipei/api/v1/dataset/43c0bdc5-ddb0-40bf-accd-a096d8c5ac23?scope=resourceAquire".
Definition NOTES : str :=
  u "evaluation_by_year uses Minguo year as string keys, e.g. '114'. Values like '優/甲/乙/丙/已歇業/...' are kept as-is.".
Definition UPDATE_INTERVAL_DAYS : Z := 10.
Definition DEFAULT_LIMIT : Z := 1000.

Section Script.

Context {B : Builtins}.

(** The value of a decimal digit ([\d], and the digits of [int()]). *)
Definition todecimal (c : N) : option Z :=
  if (c <? 128)%N
  then (if (48 <=? c)%N && (c <=? 57)%N then Some (Z.of_N c - 48) else None)
  else unicode_todecimal c.

Definition isdecimal (c : N) : bool :=
  match todecimal c with Some _ => true | None => false end.

(** [str(v)] *)
Definition py_str (v : pyval) : str :=
  match v with
  | PNone => u "None"
  | PBool true => u "True"
  | PBool false => u "False"
  | PInt z => of_Z z
  | PStr s => s
  | _ => py_repr v
  end.

(** The digits of an integer literal after its first digit: digits,
    each optionally preceded by one underscore. *)
Fixpoint int_digits (acc : Z) (s : str) : option Z :=
  match s with
  | [] => Some acc
  | c :: r =>
      if (c =? LOW_LINE)%N then
        match r with
        | d :: r' =>
            match todecimal d with
            | Some v => int_digits (acc * 10 + v) r'
            | None => None
            end
        | [] => None
        end
      else
        match todecimal c with
        | Some v => int_digits (acc * 10 + v) r
        | None => None
        end
  end.

Definition int_unsigned (s : str) : option Z :=
  match s with
  | c :: r =>
      match todecimal c with
      | Some v => int_digits v r
      | None => None
      end
  | [] => None
  end.

(** [int(s)] for a string; [None] when it raises [ValueError].  The
    numerals are of any length: the limit CPython 3.11 puts on the digits
    of a conversion (4300 by default), beyond which [int] and [str]
    raise, is not part of the model. *)
Definition py_int (s : str) : option Z :=
  match strip s with
  | c :: r =>
      if (c =? HYPHEN_MINUS)%N then Z.opp <$> int_unsigned r
      else if (c =? PLUS)%N then int_unsigned r
      else int_unsigned (c :: r)
  | [] => None
  end.

Definition safe_int (x : pyval) : option Z :=
  py_int (strip (py_str x)).

(** [YEAR_COL_RE.match(s)]: the group [yr]. *)
Definition YEAR_COL_RE (s : str) : option str :=
  match s with
  | a :: b :: c :: y :: e =>
      if isdecimal a && isdecimal b && isdecimal c && (y =? CJK_YEAR)%N
         && (Str.eqb e [] || Str.eqb e [LF])
      then Some [a; b; c] else None
  | _ => None
  end.

(** The tail [\s*(?P<grade>.+?)\s*$] of [LEGACY_EVAL_RE]: the group
    [grade].  After the leading white space the grade runs to the last
    character that is not white space, and may not hold a line feed; on
    a tail of white space only, the grade is its last character other
    than a line feed. *)
Definition legacy_grade (r : str) : option str :=
  match lstrip r with
  | [] => (fun c => [c]) <$> List.find (fun c => negb (c =? LF)%N) (rev r)
  | b => let g := rstrip b in
         if existsb (fun c => (c =? LF)%N) g then None else Some g
  end.

(** [LEGACY_EVAL_RE.match(s)]: the groups [yr] and [grade]. *)
Definition LEGACY_EVAL_RE (s : str) : option (str * str) :=
  match s with
  | a :: b :: c :: r =>
      if isdecimal a && isdecimal b && isdecimal c then
        match lstrip r with
        | h :: r' =>
            if (h =? HYPHEN_MINUS)%N || (h =? FULLWIDTH_HYPHEN_MINUS)%N
            then pair [a; b; c] <$> legacy_grade r'
            else None
        | [] => None
        end
      else None
  | _ => None
  end.

Definition datetime_now (w : World) (at_ : ClockRead) (tz : Z) : datetime :=
  replace_tzinfo (clock w at_) tz.

Definition now_taipei_iso (w : World) (at_ : ClockRead) : str :=
  let tz := timedelta_hours 8 in
  isoformat (replace_microsecond (datetime_now w at_ tz) 0).

(** The paging loop of [fetch_all_records], one iteration per unit of
    fuel. *)
Fixpoint fetch_loop (w : World) (fuel : nat) (offset_ : Z) (out : list pydict)
    (meta_ : option ApiMeta) : result (list pydict * ApiMeta) :=
  match fuel with
  | O => OutOfFuel
  | S fuel' =>
      match http_get w offset_ with
      | Status_error => Raise HTTPError
      | Payload payload =>
          let result_ := default (mk_result None None None None) payload in
          let meta_ :=
            match meta_ with
            | None => mk_api_meta (count result_) (limit result_) (offset result_)
            | Some m => m
            end in
          let records := default [] (results result_) in
          let out := out ++ records in
          let count_ := default (Z.of_nat (length out)) (count result_) in
          if count_ <=? Z.of_nat (length out) then Ok (out, meta_)
          else fetch_loop w fuel' (offset_ + DEFAULT_LIMIT) out (Some meta_)
      end
  end.

Definition fetch_all_records (w : World) (fuel : nat)
    : result (list pydict * ApiMeta) :=
  fetch_loop w fuel 0 [] None.

Definition parse_eval_years (rec : pydict) : gmap str str :=
  fold_left
    (fun years kv =>
       match YEAR_COL_RE (strip (fst kv)) with
       | None => years
       | Some yr =>
           let grade := match snd kv with
                        | PNone => []
                        | v => strip (py_str v)
                        end in
           <[yr := grade]> years
       end)
    rec ∅.

Definition normalize_lat_lng (lat lng : option float)
    : option float * option float :=
  match lat, lng with
  | Some la, Some ln =>
      if PrimFloat.ltb 90 (PrimFloat.abs la) && PrimFloat.leb (PrimFloat.abs ln) 90
      then (lng, lat)
      else (lat, lng)
  | _, _ => (lat, lng)
  end.

Definition load_existing_json (w : World) : result (option Existing) :=
  match data_json w with
  | None => Ok None
  | Some f =>
      match loaded f with
      | Some doc => Ok (Some doc)
      | None => Raise JSONDecodeError
      end
  end.

(** [if existing]: a dict is true when it has a key. *)
Definition existing_truthy (e : Existing) : bool :=
  match existing_meta e, existing_centers e, existing_other e with
  | None, None, [] => false
  | _, _, _ => true
  end.

Definition should_run_update (w : World) (existing : option Existing)
    : result bool :=
  if Str.eqb (strip (default [] (environ w !! u "FORCE_UPDATE"))) (u "1")
  then Ok true
  else
    match existing with
    | None => Ok true
    | Some e =>
        if negb (existing_truthy e) then Ok true else
        let meta_ := default [] (existing_meta e) in
        let last := or_none (dict_get (u "last_successful_update") meta_) in
        if negb (truthy last) then Ok true else
        match datetime_fromisoformat (replace SPACE LETTER_T (py_str last)) with
        | None => Ok true
        | Some last_dt =>
            let tz := timedelta_hours 8 in
            let now_dt := datetime_now w In_should_run_update tz in
            let last_dt :=
              match tzinfo last_dt with
              | None => replace_tzinfo last_dt tz
              | Some _ => last_dt
              end in
            d ← Datetime.sub now_dt last_dt;
            Ok (timedelta_days UPDATE_INTERVAL_DAYS <=? d)
        end
    end.

(** ** [main], piece by piece *)

(** [(c.get(k) or "").strip()] *)
Definition field (c : row) (k : string) : str :=
  strip (default [] (row_get c k)).

(** Lines 173-181: the two coordinates of a geocode row. *)
Definition xy_lat_lng (r : row) : option float * option float :=
  let or_nan (o : option str) : str :=
    match o with
    | Some (c :: t) => c :: t
    | _ => u "nan"
    end in
  let '(lat, lng) :=
    match py_float (or_nan (row_get r "lat")), py_float (or_nan (row_get r "lng")) with
    | Some la, Some ln => (Some la, Some ln)
    | _, _ => (None, None)
    end in
  let not_nan (o : option float) : option float :=
    match o with
    | Some f => if PrimFloat.is_nan f then None else Some f
    | None => None
    end in
  (not_nan lat, not_nan lng).

(** Lines 167-187: the loop over the rows of the geocode table. *)
Definition load_xy_map (rows : list row) : gmap Z GeoRecord :=
  fold_left
    (fun xy_map r =>
       match safe_int (of_option (row_get r "id")) with
       | None => xy_map
       | Some cid =>
           if cid =? 0 then xy_map else
           let '(lat, lng) := xy_lat_lng r in
           let '(lat, lng) := normalize_lat_lng lat lng in
           <[cid := mk_geo (field r "Response_Address") lat lng]> xy_map
       end)
    rows ∅.

(** The name under which a remote record is indexed. *)
Definition api_name (rec : pydict) : str :=
  strip (py_str (py_or (or_none (dict_get (u "機構名稱") rec)) (PStr []))).

Definition api_no (rec : pydict) : option Z :=
  safe_int (or_none (dict_get (u "編號") rec)).

(** Lines 193-201: the two indexes of the remote records. *)
Definition index_api (records : list pydict)
    : gmap Z pydict * gmap str pydict :=
  fold_left
    (fun '(api_by_no, api_by_name) rec =>
       let api_by_no :=
         match api_no rec with
         | Some no => <[no := rec]> api_by_no
         | None => api_by_no
         end in
       let name_ := api_name rec in
       let api_by_name :=
         if negb (Str.eqb name_ []) then <[name_ := rec]> api_by_name
         else api_by_name in
       (api_by_no, api_by_name))
    records (∅, ∅).

(** Order of the year keys. *)
Definition key_le (a b : str * str) : Prop := Str.leb (fst a) (fst b).

#[global] Instance key_le_dec a b : Decision (key_le a b).
Proof. unfold key_le. apply _. Defined.

(** [sorted(eval_by_year.items(), key=lambda kv: kv[0])] *)
Definition sorted_items (eval_by_year : gmap str str) : list (str * str) :=
  merge_sort key_le (map_to_list eval_by_year).

Section Reconciler.

Variable existing : option Existing.
Variable api_by_no : gmap Z pydict.
Variable api_by_name : gmap str pydict.
Variable xy_map : gmap Z GeoRecord.

(** Lines 219-224: the history of the first old center with this id. *)
Definition history (cid : Z) : gmap str str :=
  match existing with
  | Some e =>
      if existing_truthy e then
        match List.find (fun old => bool_decide (safe_int (old_id old) = Some cid))
                        (default [] (existing_centers e)) with
        | Some old => default ∅ (old_evaluation_by_year old)
        | None => ∅
        end
      else ∅
  | None => ∅
  end.

(** Lines 227-230: the legacy field on top. *)
Definition merge_legacy (c : row) (eval_by_year : gmap str str)
    : gmap str str :=
  match LEGACY_EVAL_RE (field c "評鑑結果") with
  | Some (yr, grade) => <[yr := strip grade]> eval_by_year
  | None => eval_by_year
  end.

(** Line 233: [api_by_no.get(cid) or api_by_name.get(name)], and the
    test [if rec] of line 235. *)
Definition lookup_rec (cid : Z) (name_ : str) : option pydict :=
  let found :=
    match api_by_no !! cid with
    | Some rec => if truthy (PDict rec) then Some rec else api_by_name !! name_
    | None => api_by_name !! name_
    end in
  match found with
  | Some rec => if truthy (PDict rec) then Some rec else None
  | None => None
  end.

(** Lines 237-240 *)
Definition importdate (rec : pydict) : option str :=
  match dict_get (u "_importdate") rec with
  | Some (PDict imp) =>
      let date := or_none (dict_get (u "date") imp) in
      if truthy date then Some (py_str date) else None
  | _ => None
  end.

(** Lines 211-262: the body of the loop for a row whose id is [cid]:
    the snapshot, and whether the row is unmatched. *)
Definition snapshot (c : row) (cid : Z) : CenterSnapshot * bool :=
  let name_ := field c "機構名稱" in
  let eval_by_year := merge_legacy c (history cid) in
  let rec := lookup_rec cid name_ in
  let eval_by_year :=
    match rec with
    | Some r => parse_eval_years r ∪ eval_by_year
    | None => eval_by_year
    end in
  let geo := xy_map !! cid in
  (mk_center cid name_ (field c "行政區") (field c "地址") (field c "電話")
             (field c "核定收托人數") (field c "實際收托人數")
             (geo_response_address <$> geo)
             (geo ≫= geo_lat) (geo ≫= geo_lng)
             (sorted_items eval_by_year)
             (rec ≫= importdate),
   match rec with Some _ => false | None => true end).

(** Lines 206-262: the loop over the base roster. *)
Fixpoint reconcile (centers_ : list row) (out_centers : list CenterSnapshot)
    (unmatched : list Z) : list CenterSnapshot * list Z :=
  match centers_ with
  | [] => (out_centers, unmatched)
  | c :: rest =>
      match safe_int (of_option (row_get c "序號")) with
      | None => reconcile rest out_centers unmatched
      | Some cid =>
          let '(snap, is_unmatched) := snapshot c cid in
          reconcile rest (out_centers ++ [snap])
                    (if is_unmatched then unmatched ++ [cid] else unmatched)
      end
  end.

End Reconciler.

(** Lines 264-276 *)
Definition build_out (w : World) (api_meta : ApiMeta)
    (out_centers : list CenterSnapshot) (unmatched : list Z) : Document :=
  mk_document
    (mk_meta (now_taipei_iso w In_fetched_at)
             (now_taipei_iso w In_last_successful_update)
             UPDATE_INTERVAL_DAYS
             (reported_count api_meta)
             (take 50 unmatched)
             (length unmatched))
    out_centers.

(** Lines 279-292: write only if changed.  The write itself is taken to
    succeed (a text that UTF-8 cannot encode is not considered). *)
Definition write_if_changed (old_json : option str) (new_json : str) : Outcome :=
  match old_json with
  | Some old => if Str.eqb old new_json then No_change
                else Updated (new_json ++ [LF])
  | None => Updated (new_json ++ [LF])
  end.

(** Lines 161-276: from the sources to the output document. *)
Definition build_document (w : World) (existing : option Existing)
    (centers_ : list row) (fuel : nat) : result Document :=
  let xy_map :=
    match xy_csv w with
    | Some rows => load_xy_map rows
    | None => ∅
    end in
  '(records, api_meta) ← fetch_all_records w fuel;
  let '(api_by_no, api_by_name) := index_api records in
  let '(out_centers, unmatched) :=
    reconcile existing api_by_no api_by_name xy_map centers_ [] [] in
  Ok (build_out w api_meta out_centers unmatched).

Definition main (w : World) (fuel : nat) : result Outcome :=
  existing ← load_existing_json w;
  run ← should_run_update w existing;
  if negb run then Ok Skip else
  match centers_csv w with
  | None => Ok Missing_centers_csv
  | Some centers_ =>
      out ← build_document w existing centers_ fuel;
      Ok (write_if_changed (text <$> data_json w) (json_dumps out))
  end.

(** The file [data.json] after a run. *)
Definition data_json_after (w : World) (o : Outcome) : option str :=
  match o with
  | Updated written => Some written
  | _ => text <$> data_json w
  end.

End Script.

(* ================================================================== *)
(** * An implementation of the parameters

    Used to run the examples.  It follows CPython on the inputs the
    examples give it: decimal digits of the ASCII, Arabic-Indic and
    full-width blocks; float literals [nan], [inf] and plain decimals of
    at most 15 digits (where the quotient of two exact doubles is the
    correctly rounded value); timestamps in the format documented for
    Python 3.7-3.10,
    [YYYY-MM-DD[*HH[:MM[:SS[.fff[fff]]]][+HH:MM[:SS[.ffffff]]]]].
    [repr] covers floats between 1e-4 and 1e16 in magnitude and strings
    of printable characters. *)

Module Reference.

Definition decimal_table (c : N) : option Z :=
  if (1632 <=? c)%N && (c <=? 1641)%N then Some (Z.of_N c - 1632)
  else if (65296 <=? c)%N && (c <=? 65305)%N then Some (Z.of_N c - 65296)
  else None.

Definition ascii_digit (c : N) : option Z :=
  if (48 <=? c)%N && (c <=? 57)%N then Some (Z.of_N c - 48) else None.

(** The number written by a non-empty string of ASCII digits. *)
Definition number (s : str) : option Z :=
  match s with
  | [] => None
  | _ => fold_left (fun acc c => a ← acc; d ← ascii_digit c; Some (a * 10 + d))
                   s (Some 0)
  end.

(** [s] up to the first character satisfying [p], and from it on. *)
Fixpoint before (p : N -> bool) (s : str) : str :=
  match s with
  | c :: r => if p c then [] else c :: before p r
  | [] => []
  end.

Fixpoint from (p : N -> bool) (s : str) : str :=
  match s with
  | c :: r => if p c then s else from p r
  | [] => []
  end.

Definition float_of_Z (z : Z) : float := PrimFloat.of_uint63 (Uint63.of_Z z).

Definition lower (c : N) : N :=
  if (65 <=? c)%N && (c <=? 90)%N then (c + 32)%N else c.

Definition unsigned_float (s : str) : option float :=
  let l := List.map lower s in
  if Str.eqb l (u "nan") then Some PrimFloat.nan
  else if Str.eqb l (u "inf") || Str.eqb l (u "infinity") then Some PrimFloat.infinity
  else
    let ip := before (fun c => (c =? FULL_STOP)%N) s in
    let fp := tail (from (fun c => (c =? FULL_STOP)%N) s) in
    if (15 <? length (ip ++ fp))%nat then None else
    m ← number (ip ++ fp);
    Some (PrimFloat.div (float_of_Z m) (float_of_Z (10 ^ Z.of_nat (length fp)))).

Definition float_literal (s : str) : option float :=
  match strip s with
  | c :: r =>
      if (c =? HYPHEN_MINUS)%N then PrimFloat.opp <$> unsigned_float r
      else if (c =? PLUS)%N then unsigned_float r
      else unsigned_float (c :: r)
  | [] => None
  end.

Definition is_sign (c : N) : bool := (c =? PLUS)%N || (c =? HYPHEN_MINUS)%N.

(** [HH[:MM[:SS[.fff[fff]]]]]: hour, minute, second, microsecond. *)
Definition clock_fields (s : str) : option (Z * Z * Z * Z) :=
  let colon c := (c =? COLON)%N in
  match s with
  | [h1; h2] => h ← number [h1; h2]; Some (h, 0, 0, 0)
  | [h1; h2; c1; m1; m2] =>
      if colon c1 then h ← number [h1; h2]; m ← number [m1; m2]; Some (h, m, 0, 0)
      else None
  | h1 :: h2 :: c1 :: m1 :: m2 :: c2 :: s1 :: s2 :: f =>
      if colon c1 && colon c2 then
        h ← number [h1; h2]; m ← number [m1; m2]; s ← number [s1; s2];
        match f with
        | [] => Some (h, m, s, 0)
        | d :: ff =>
            if (d =? FULL_STOP)%N then
              if (length ff =? 3)%nat then us ← number ff; Some (h, m, s, us * 1000)
              else if (length ff =? 6)%nat then us ← number ff; Some (h, m, s, us)
              else None
            else None
        end
      else None
  | _ => None
  end.

Definition valid_clock (f : Z * Z * Z * Z) : bool :=
  let '(h, m, s, _) := f in (h <? 24) && (m <? 60) && (s <? 60).

(** [+HH:MM[:SS[.ffffff]]]: the offset in microseconds. *)
Definition offset_fields (s : str) : option Z :=
  match s with
  | sg :: r =>
      if (length r =? 5)%nat || (length r =? 8)%nat || (length r =? 15)%nat then
        '(h, m, s, us) ← clock_fields r;
        let off := ((h * 60 + m) * 60 + s) * 1000000 + us in
        if off <? timedelta_hours 24
        then Some (if (sg =? HYPHEN_MINUS)%N then - off else off)
        else None
      else None
  | [] => None
  end.

Definition fromisoformat (s : str) : option datetime :=
  match s with
  | y1 :: y2 :: y3 :: y4 :: d1 :: m1 :: m2 :: d2 :: a1 :: a2 :: r =>
      if (d1 =? HYPHEN_MINUS)%N && (d2 =? HYPHEN_MINUS)%N then
        y ← number [y1; y2; y3; y4]; m ← number [m1; m2]; d ← number [a1; a2];
        if (1 <=? y) && (1 <=? m) && (m <=? 12) && (1 <=? d)
           && (d <=? days_in_month y m) then
          match r with
          | [] => Some (mk_datetime y m d 0 0 0 0 None)
          | _ :: t =>
              let tm := before is_sign t in
              let tz := from is_sign t in
              f ← clock_fields tm;
              if valid_clock f then
                let '(hh, mi, ss, us) := f in
                match tz with
                | [] => Some (mk_datetime y m d hh mi ss us None)
                | _ => off ← offset_fields tz;
                       Some (mk_datetime y m d hh mi ss us (Some off))
                end
              else None
          end
        else None
      else None
  | _ => None
  end.

(** *** Printing *)

(** [sep.join(parts)] *)
Definition join (sep : str) (parts : list str) : str :=
  match parts with
  | [] => []
  | p :: ps => p ++ concat (List.map (fun q => sep ++ q) ps)
  end.

(** The integer nearest to [m * 10^k * 2^e], ties to even. *)
Definition scaled (m e : Z) (k : nat) : Z :=
  let n := m * 10 ^ Z.of_nat k in
  if 0 <=? e then n * 2 ^ e else
  let d := 2 ^ (- e) in
  let q := n / d in
  let r := n mod d in
  if (d <? 2 * r) || ((d =? 2 * r) && Z.odd q) then q + 1 else q.

(** [mk / 10^k] written with [k] decimals ([.0] when there is none). *)
Definition decimal (mk : Z) (k : nat) : str :=
  let d := zfill (S k) mk in
  let ip := take (length d - k) d in
  let fp := drop (length d - k) d in
  ip ++ [FULL_STOP] ++ match fp with [] => u "0" | _ => fp end.

(** The shortest decimal with at most 17 decimals that reads back as the
    positive float [a = m * 2^e]. *)
Fixpoint shortest (a : float) (m e : Z) (fuel k : nat) : str :=
  let mk := scaled m e k in
  match fuel with
  | O => decimal mk k
  | S fuel' =>
      if (mk <? 2 ^ 53)
         && PrimFloat.eqb (PrimFloat.div (float_of_Z mk) (float_of_Z (10 ^ Z.of_nat k))) a
      then decimal mk k
      else shortest a m e fuel' (S k)
  end.

(** [repr] of a float, between 1e-4 and 1e16 in magnitude. *)
Definition float_repr (f : float) : str :=
  match Prim2SF f with
  | S754_nan => u "nan"
  | S754_infinity s => if s then u "-inf" else u "inf"
  | S754_zero s => if s then u "-0.0" else u "0.0"
  | S754_finite s m e =>
      (if s then [HYPHEN_MINUS] else [])
        ++ shortest (PrimFloat.abs f) (Z.pos m) e 17 0
  end.

Definition QUOTE : N := 34.
Definition APOSTROPHE : N := 39.
Definition BACKSLASH : N := 92.

Definition hex_digit (n : N) : N := if (n <? 10)%N then (48 + n)%N else (87 + n)%N.

(** [repr] of a string of printable characters. *)
Definition str_repr (s : str) : str :=
  let q := if existsb (N.eqb APOSTROPHE) s && negb (existsb (N.eqb QUOTE) s)
           then QUOTE else APOSTROPHE in
  let esc c :=
    if (c =? BACKSLASH)%N || (c =? q)%N then [BACKSLASH; c]
    else if (c =? 10)%N then u "\n"
    else if (c =? 13)%N then u "\r"
    else if (c =? 9)%N then u "\t"
    else [c] in
  [q] ++ concat (List.map esc s) ++ [q].

Fixpoint repr (v : pyval) : str :=
  match v with
  | PNone => u "None"
  | PBool true => u "True"
  | PBool false => u "False"
  | PInt z => of_Z z
  | PFloat f => float_repr f
  | PStr s => str_repr s
  | PList l => u "[" ++ join (u ", ") (List.map repr l) ++ u "]"
  | PDict d =>
      u "{" ++ join (u ", ")
                    (List.map (fun kv => str_repr (fst kv) ++ u ": " ++ repr (snd kv)) d)
        ++ u "}"
  end.

(** A JSON text in the making. *)
Inductive json : Type :=
| JNull
| JInt (z : Z)
| JFloat (f : float)
| JString (s : str)
| JArray (l : list json)
| JObject (l : list (str * json)).

(** A string literal of [json.dumps(..., ensure_ascii=False)]. *)
Definition json_string (s : str) : str :=
  let esc c :=
    if (c =? QUOTE)%N || (c =? BACKSLASH)%N then [BACKSLASH; c]
    else if (c =? 8)%N then u "\b"
    else if (c =? 12)%N then u "\f"
    else if (c =? 10)%N then u "\n"
    else if (c =? 13)%N then u "\r"
    else if (c =? 9)%N then u "\t"
    else if (c <? 32)%N then u "\u00" ++ [hex_digit (c / 16); hex_digit (c mod 16)]
    else [c] in
  [QUOTE] ++ concat (List.map esc s) ++ [QUOTE].

Definition json_float (f : float) : str :=
  match Prim2SF f with
  | S754_nan => u "NaN"
  | S754_infinity s => if s then u "-Infinity" else u "Infinity"
  | _ => float_repr f
  end.

Definition newline (level : nat) : str := LF :: repeat SPACE (2 * level).

(** [json.dumps(j, indent=2)] at a nesting level. *)
Fixpoint dumps (level : nat) (j : json) : str :=
  match j with
  | JNull => u "null"
  | JInt z => of_Z z
  | JFloat f => json_float f
  | JString s => json_string s
  | JArray [] => u "[]"
  | JArray l =>
      u "[" ++ newline (S level)
        ++ join (u "," ++ newline (S level)) (List.map (dumps (S level)) l)
        ++ newline level ++ u "]"
  | JObject [] => u "{}"
  | JObject l =>
      u "{" ++ newline (S level)
        ++ join (u "," ++ newline (S level))
                (List.map (fun kv => json_string (fst kv) ++ u ": " ++ dumps (S level) (snd kv)) l)
        ++ newline level ++ u "}"
  end.

Definition json_option {A : Type} (f : A -> json) (o : option A) : json :=
  match o with Some a => f a | None => JNull end.

Definition json_of_center (c : CenterSnapshot) : json :=
  JObject [
    (u "id", JInt (id c));
    (u "name", JString (name c));
    (u "district", JString (district c));
    (u "address", JString (address c));
    (u "phone", JString (phone c));
    (u "capacity_approved", JString (capacity_approved c));
    (u "capacity_current", JString (capacity_current c));
    (u "response_address", json_option JString (response_address c));
    (u "lat", json_option JFloat (lat c));
    (u "lng", json_option JFloat (lng c));
    (u "evaluation_by_year",
     JObject (List.map (fun kv => (fst kv, JString (snd kv))) (evaluation_by_year c)));
    (u "source_importdate", json_option JString (source_importdate c))
  ].

Definition json_of_document (d : Document) : json :=
  let m := meta d in
  JObject [
    (u "meta", JObject [
      (u "source", JString API_BASE);
      (u "fetched_at", JString (fetched_at m));
      (u "last_successful_update", JString (last_successful_update m));
      (u "update_interval_days", JInt (update_interval_days m));
      (u "api_reported_count", json_option JInt (api_reported_count m));
      (u "notes", JString NOTES);
      (u "unmatched_center_ids_in_base_list",
       JArray (List.map JInt (unmatched_center_ids_in_base_list m)));
      (u "unmatched_count", JInt (Z.of_nat (unmatched_count m)))
    ]);
    (u "centers", JArray (List.map json_of_center (centers d)))
  ].

#[global] Instance builtins : Builtins := {|
  unicode_todecimal := decimal_table;
  py_float := float_literal;
  py_repr := repr;
  json_dumps := fun d => dumps 0 (json_of_document d);
  datetime_fromisoformat := fromisoformat
|}.

End Reference.

(* ================================================================== *)
(** * Vocabulary of the specification *)

Section Vocabulary.

Context {B : Builtins}.

(** The identifier of a base-roster row, when it parses. *)
Definition row_id (c : row) : option Z :=
  safe_int (of_option (row_get c "序號")).

(** The identifier of a geocode row, when it parses. *)
Definition xy_id (r : row) : option Z :=
  safe_int (of_option (row_get r "id")).

(** A remote record matches a row by identifier, or by its exact name
    (a record without a name is not looked up by name). *)
Definition matches_by_id (cid : Z) (rec : pydict) : bool :=
  bool_decide (api_no rec = Some cid).

Definition matches_by_name (name_ : str) (rec : pydict) : bool :=
  Str.eqb (api_name rec) name_ && negb (Str.eqb (api_name rec) []).

Definition remote_match (records : list pydict) (c : row) (cid : Z) : bool :=
  existsb (matches_by_id cid) records
  || existsb (matches_by_name (field c "機構名稱")) records.

(** The identifiers of the rows without a remote match, in roster order. *)
Definition unmatched_rows (records : list pydict) (centers_ : list row) : list Z :=
  omap (fun c => cid ← row_id c;
                 if remote_match records c cid then None else Some cid)
       centers_.

(** The grade an output snapshot records for a year. *)
Definition grade_of (snap : CenterSnapshot) (y : str) : option str :=
  (list_to_map (evaluation_by_year snap) : gmap str str) !! y.

(** The year -> grade layers of one row: the year the legacy field
    supplies, and the years the matched remote record supplies. *)
Definition legacy_layer (c : row) : gmap str str :=
  match LEGACY_EVAL_RE (field c "評鑑結果") with
  | Some (yr, grade) => {[ yr := strip grade ]}
  | None => ∅
  end.

Definition remote_layer (rec : option pydict) : gmap str str :=
  match rec with
  | Some r => parse_eval_years r
  | None => ∅
  end.

(** The magnitude of a coordinate exceeds 90; it does not exceed 90. *)
Definition exceeds_90 (x : float) : bool := PrimFloat.ltb 90 (PrimFloat.abs x).
Definition within_90 (x : float) : bool := PrimFloat.leb (PrimFloat.abs x) 90.

(** Page [i] of the remote endpoint: the answer to the GET with offset
    [i * DEFAULT_LIMIT]. *)
Definition page (w : World) (i : nat) : Response :=
  http_get w (Z.of_nat i * DEFAULT_LIMIT).

Definition page_result (w : World) (i : nat) : ApiResult :=
  match page w i with
  | Payload (Some r) => r
  | _ => mk_result None None None None
  end.

Definition page_ok (w : World) (i : nat) : bool :=
  match page w i with Payload _ => true | Status_error => false end.

(** The records of the pages [0 .. n-1], in order. *)
Fixpoint accumulated (w : World) (n : nat) : list pydict :=
  match n with
  | O => []
  | S k => accumulated w k ++ default [] (results (page_result w k))
  end.

(** After page [i] the running total has reached the count the page
    reports (a page that reports no count ends the paging). *)
Definition reached (w : World) (i : nat) : bool :=
  match count (page_result w i) with
  | Some n => n <=? Z.of_nat (length (accumulated w (S i)))
  | None => true
  end.

(** The count, limit and offset the first page reports. *)
Definition first_page_meta (w : World) : ApiMeta :=
  mk_api_meta (count (page_result w 0)) (limit (page_result w 0))
              (offset (page_result w 0)).

(** The same world with another base roster, and with another
    [data.json]. *)
Definition with_centers_csv (w : World) (cs : option (list row)) : World :=
  mk_world (environ w) (clock w) (data_json w) cs (xy_csv w) (http_get w).

Definition with_data_json (w : World) (f : option JsonFile) : World :=
  mk_world (environ w) (clock w) f (centers_csv w) (xy_csv w) (http_get w).

(** The time elapsed between a parsed [last_successful_update] (read in
    UTC+8 when it carries no offset) and the clock (read in UTC+8). *)
Definition elapsed (w : World) (last_dt : datetime) : Z :=
  (wall_us (clock w In_should_run_update) - timedelta_hours 8)
  - (wall_us last_dt - default (timedelta_hours 8) (tzinfo last_dt)).

(** A text that starts and ends with a character other than white space. *)
Definition trimmed (s : str) : Prop := lstrip s = s /\ rstrip s = s.

(** The characters of a decimal numeral, and the number its digits
    denote after the number [acc]. *)
Fixpoint uint_chars (d : Decimal.uint) : str :=
  match d with
  | Decimal.Nil => []
  | Decimal.D0 r => 48%N :: uint_chars r
  | Decimal.D1 r => 49%N :: uint_chars r
  | Decimal.D2 r => 50%N :: uint_chars r
  | Decimal.D3 r => 51%N :: uint_chars r
  | Decimal.D4 r => 52%N :: uint_chars r
  | Decimal.D5 r => 53%N :: uint_chars r
  | Decimal.D6 r => 54%N :: uint_chars r
  | Decimal.D7 r => 55%N :: uint_chars r
  | Decimal.D8 r => 56%N :: uint_chars r
  | Decimal.D9 r => 57%N :: uint_chars r
  end.

Fixpoint uint_val (acc : Z) (d : Decimal.uint) : Z :=
  match d with
  | Decimal.Nil => acc
  | Decimal.D0 r => uint_val (acc * 10 + 0) r
  | Decimal.D1 r => uint_val (acc * 10 + 1) r
  | Decimal.D2 r => uint_val (acc * 10 + 2) r
  | Decimal.D3 r => uint_val (acc * 10 + 3) r
  | Decimal.D4 r => uint_val (acc * 10 + 4) r
  | Decimal.D5 r => uint_val (acc * 10 + 5) r
  | Decimal.D6 r => uint_val (acc * 10 + 6) r
  | Decimal.D7 r => uint_val (acc * 10 + 7) r
  | Decimal.D8 r => uint_val (acc * 10 + 8) r
  | Decimal.D9 r => uint_val (acc * 10 + 9) r
  end.

(** The grade a year column holds: [""] for [None], else the stripped
    text of the value. *)
Definition grade_text (v : pyval) : str :=
  match v with
  | PNone => []
  | _ => strip (py_str v)
  end.

(** A year key: three decimal digits. *)
Definition year_key (y : str) : Prop :=
  exists a b c, y = [a; b; c]
    /\ isdecimal a = true /\ isdecimal b = true /\ isdecimal c = true.

(** The entry the geocode loader stores for a row. *)
Definition xy_entry (r : row) : GeoRecord :=
  mk_geo (field r "Response_Address")
         (fst (normalize_lat_lng (fst (xy_lat_lng r)) (snd (xy_lat_lng r))))
         (snd (normalize_lat_lng (fst (xy_lat_lng r)) (snd (xy_lat_lng r)))).

(** A coordinate that is absent, or a number. *)
Definition not_nan (o : option float) : Prop :=
  forall f, o = Some f -> PrimFloat.is_nan f = false.

(** The text the geocode loader gives to [float()] for a coordinate:
    the field, or ["nan"] when it is missing or empty. *)
Definition coordinate_text (r : row) (k : string) : str :=
  match row_get r k with
  | Some (c :: t) => c :: t
  | _ => u "nan"
  end.

(** What [json.load] returns on the text [json.dumps] makes of the output
    document: the keys of ["meta"], and for each center its [id] and its
    year -> grade pairs (the other keys of a center are not read). *)
Definition reloaded_center (snap : CenterSnapshot) : OldCenter :=
  mk_old (PInt (id snap)) (Some (list_to_map (evaluation_by_year snap))).

Definition reloaded (d : Document) : Existing :=
  let m := meta d in
  mk_existing
    (Some [(u "source", PStr API_BASE);
           (u "fetched_at", PStr (fetched_at m));
           (u "last_successful_update", PStr (last_successful_update m));
           (u "update_interval_days", PInt (update_interval_days m));
           (u "api_reported_count",
            match api_reported_count m with Some n => PInt n | None => PNone end);
           (u "notes", PStr NOTES);
           (u "unmatched_center_ids_in_base_list",
            PList (List.map PInt (unmatched_center_ids_in_base_list m)));
           (u "unmatched_count", PInt (Z.of_nat (unmatched_count m)))])
    (Some (List.map reloaded_center (centers d)))
    [].

(** The same world with another remote endpoint. *)
Definition with_http_get (w : World) (get : Z -> Response) : World :=
  mk_world (environ w) (clock w) (data_json w) (centers_csv w) (xy_csv w) get.

(** The fields of a [datetime] that Python can construct. *)
Definition in_range (dt : datetime) : Prop :=
  1 <= year dt <= 9999 /\ 1 <= month dt <= 12
  /\ 1 <= day dt <= days_in_month (year dt) (month dt)
  /\ 0 <= hour dt < 24 /\ 0 <= minute dt < 60 /\ 0 <= second dt < 60.

(** An ASCII digit. *)
Definition digit_char (c : N) : bool := (48 <=? c)%N && (c <=? 57)%N.

(** The mapping the previous document holds for an identifier: that of
    its first center whose [id] reads as the identifier, empty when there
    is no previous document, no such center, or no mapping in it. *)
Definition prior_mapping (existing : option Existing) (cid : Z) : gmap str str :=
  match existing with
  | Some e =>
      match filter (fun old => safe_int (old_id old) = Some cid)
                   (default [] (existing_centers e)) with
      | old :: _ => default ∅ (old_evaluation_by_year old)
      | [] => ∅
      end
  | None => ∅
  end.

(** CPython (3.11, and the security releases of 3.7 to 3.10) refuses to
    convert between [int] and [str] beyond a number of digits,
    [sys.int_info.default_max_str_digits] unless configured otherwise;
    [py_int] and [of_Z] have no such limit.  An integer whose decimal
    numeral is within the limit: *)
Definition MAX_STR_DIGITS : nat := 4300.

Definition within_digit_limit (z : Z) : Prop :=
  (length (of_Z (Z.abs z)) <= MAX_STR_DIGITS)%nat.

End Vocabulary.

(* ================================================================== *)
(** * Inputs of the examples *)

Module Examples.

Local Open Scope string_scope.

Definition mk_row (fields : list (string * string)) : row :=
  list_to_map (List.map (fun kv => (u (fst kv), u (snd kv))) fields).

(** Roster rows: identifier 5 without a legacy grade, identifier 5 with
    the legacy grade 111-甲, an identifier that is no number, and the
    identifier 0. *)
Definition row_5 : row :=
  mk_row [("序號", "5"); ("機構名稱", "大安托嬰中心"); ("行政區", "大安區")].

Definition row_5_legacy : row :=
  mk_row [("序號", "5"); ("機構名稱", "大安托嬰中心"); ("評鑑結果", "111-甲")].

Definition row_7 : row :=
  mk_row [("序號", "7"); ("機構名稱", "信義托嬰中心"); ("評鑑結果", "112－乙")].

Definition row_bad : row :=
  mk_row [("序號", "n/a"); ("機構名稱", "無號托嬰中心")].

Definition row_0 : row :=
  mk_row [("序號", "0"); ("機構名稱", "零號托嬰中心")].

(** Geocode rows: one for the identifier 0, one for the identifier 5 with
    its axes swapped. *)
Definition xy_0 : row :=
  mk_row [("id", "0"); ("Response_Address", "臺北市"); ("lat", "25.03"); ("lng", "121.5")].

Definition xy_5 : row :=
  mk_row [("id", "5"); ("Response_Address", "臺北市大安區"); ("lat", "121.5"); ("lng", "25.0")].

(** Remote records. *)
Definition rec_5 : pydict :=
  [(u "_id", PInt 1); (u "編號", PStr (u "5")); (u "機構名稱", PStr (u "大安托嬰中心"));
   (u "111年", PStr (u "丙")); (u "112年", PStr (u "甲"))].

Definition rec_8 : pydict :=
  [(u "_id", PInt 2); (u "編號", PStr (u "8")); (u "機構名稱", PStr (u "松山托嬰中心"));
   (u "112年", PStr (u "優"))].

Definition rec_9 : pydict :=
  [(u "_id", PInt 3); (u "編號", PStr (u "9")); (u "機構名稱", PStr (u "內湖托嬰中心"))].

(** The previous document: identifier 5 with the grade 乙 for the year
    111, written at the given time. *)
Definition old_5 : OldCenter :=
  mk_old (PInt 5) (Some {[ u "111" := u "乙" ]}).

(** A previous document with the identifiers 5 and 7, without [meta]. *)
Definition old_7 : OldCenter :=
  mk_old (PInt 7) (Some {[ u "110" := u "甲" ]}).

Definition existing_5_7 : Existing :=
  mk_existing None (Some [old_5; old_7]) [].

Definition existing_at (last : string) : Existing :=
  mk_existing (Some [(u "last_successful_update", PStr (u last))])
              (Some [old_5]) [].

Definition noon (y m d : Z) : ClockRead -> datetime :=
  fun _ => mk_datetime y m d 12 0 0 0 None.

(** An endpoint with a single page holding [records]. *)
Definition one_page (records : list pydict) : Z -> Response :=
  fun _ => Payload (Some (mk_result (Some (Z.of_nat (length records)))
                                    (Some 1000) (Some 0) (Some records))).

(** An endpoint with three records on two pages. *)
Definition two_pages : Z -> Response :=
  fun offset_ =>
    if (offset_ =? 0)%Z
    then Payload (Some (mk_result (Some 3) (Some 1000) (Some 0) (Some [rec_5; rec_8])))
    else if (offset_ =? 1000)%Z
    then Payload (Some (mk_result (Some 3) (Some 1000) (Some 1000) (Some [rec_9])))
    else Status_error.

(** An endpoint whose second page fails, and one that reports three
    records and serves two: the pages after the first are empty. *)
Definition second_page_fails : Z -> Response :=
  fun offset_ =>
    if (offset_ =? 0)%Z
    then Payload (Some (mk_result (Some 3) (Some 1000) (Some 0) (Some [rec_5; rec_8])))
    else Status_error.

Definition short_of_count : Z -> Response :=
  fun offset_ =>
    Payload (Some (mk_result (Some 3) (Some 1000) (Some offset_)
                             (Some (if (offset_ =? 0)%Z then [rec_5; rec_8] else [])))).

(** A world on 2026-01-14 at noon, with the given previous document. *)
Definition world (force : list (str * str)) (f : option JsonFile)
    (roster : list row) (http : Z -> Response) : World :=
  mk_world (list_to_map force) (noon 2026 1 14) f (Some roster) (Some [xy_0; xy_5]) http.

(** [data.json] cut off after its first character. *)
Definition truncated : JsonFile := mk_json_file (u "{") None.

Definition world_truncated : World :=
  world [] (Some truncated) [row_5] (one_page [rec_5]).

(** A previous document written ten days, and nine days and 23 hours,
    before the clock. *)
Definition world_10_days : World :=
  world [] (Some (mk_json_file (u "...") (Some (existing_at "2026-01-04 12:00:00"))))
        [row_5] (one_page [rec_5]).

Definition world_9_days_23_hours : World :=
  world [] (Some (mk_json_file (u "...") (Some (existing_at "2026-01-04T13:00:00+08:00"))))
        [row_5] (one_page [rec_5]).

(** A forced first run without a previous document, the document it
    writes, and a forced second run on what the first one left. *)
Definition world_first_run : World :=
  world [(u "FORCE_UPDATE", u "1")] None [row_7] (one_page []).

Definition document_first_run : Document :=
  mk_document
    (mk_meta (u "2026-01-14T12:00:00+08:00") (u "2026-01-14T12:00:00+08:00") 10 (Some 0)
             [7] 1)
    [mk_center 7 (u "信義托嬰中心") [] [] [] [] [] None None None
               [(u "112", u "乙")] None].

Definition existing_first_run : Existing :=
  mk_existing
    (Some [(u "source", PStr API_BASE);
           (u "fetched_at", PStr (u "2026-01-14T12:00:00+08:00"));
           (u "last_successful_update", PStr (u "2026-01-14T12:00:00+08:00"));
           (u "update_interval_days", PInt 10);
           (u "api_reported_count", PInt 0);
           (u "notes", PStr NOTES);
           (u "unmatched_center_ids_in_base_list", PList [PInt 7]);
           (u "unmatched_count", PInt 1)])
    (Some [mk_old (PInt 7) (Some {[ u "112" := u "乙" ]})])
    [].

Definition world_second_run : World :=
  with_data_json world_first_run
    (Some (mk_json_file (json_dumps document_first_run ++ [LF])%list
                        (Some existing_first_run))).

End Examples.

(* ================================================================== *)
(** * Properties *)

Section Properties.

Context {B : Builtins}.

(** ** Strings *)

Lemma eqb_eq (s1 s2 : str) : Str.eqb s1 s2 = true <-> s1 = s2.
Proof. unfold Str.eqb. apply bool_decide_eq_true. Qed.

Lemma eqb_neq (s1 s2 : str) : Str.eqb s1 s2 = false <-> s1 <> s2.
Proof. unfold Str.eqb. apply bool_decide_eq_false. Qed.

Lemma eqb_refl (s : str) : Str.eqb s s = true.
Proof. by apply eqb_eq. Qed.

Lemma leb_total (s1 s2 : str) : Str.leb s1 s2 = true \/ Str.leb s2 s1 = true.
Proof.
  revert s2. induction s1 as [|c1 r1 IH]; intros [|c2 r2]; simpl; auto.
  destruct (N.ltb_spec c1 c2), (N.ltb_spec c2 c1); auto; lia.
Qed.

(** A text followed by a line feed is not the text. *)
Lemma eqb_app_LF (s : str) : Str.eqb (s ++ [LF]) s = false.
Proof.
  apply eqb_neq. intros E. apply (f_equal length) in E.
  rewrite length_app in E. simpl in E. lia.
Qed.

(** ** The sorted year -> grade mapping *)

#[local] Instance key_le_total : Total key_le.
Proof.
  intros a b. unfold key_le.
  destruct (leb_total (fst a) (fst b)) as [H|H]; rewrite H; simpl; auto.
Qed.

Lemma sorted_items_perm (m : gmap str str) : sorted_items m ≡ₚ map_to_list m.
Proof. apply merge_sort_Permutation. Qed.

Lemma sorted_items_sorted (m : gmap str str) : Sorted key_le (sorted_items m).
Proof. apply Sorted_merge_sort, _. Qed.

Lemma elem_of_sorted_items (m : gmap str str) (y g : str) :
  (y, g) ∈ sorted_items m <-> m !! y = Some g.
Proof. rewrite sorted_items_perm. apply elem_of_map_to_list. Qed.

Lemma sorted_items_NoDup (m : gmap str str) : NoDup (sorted_items m).*1.
Proof. rewrite sorted_items_perm. apply NoDup_fst_map_to_list. Qed.

Lemma list_to_map_sorted_items (m : gmap str str) :
  list_to_map (sorted_items m) = m.
Proof.
  rewrite <- (list_to_map_to_list m) at 2.
  apply list_to_map_proper; [apply sorted_items_NoDup | apply sorted_items_perm].
Qed.

(** ** The reconciler loop *)

Lemma reconcile_cons (existing : option Existing) (api_by_no : gmap Z pydict)
    (api_by_name : gmap str pydict) (xy_map : gmap Z GeoRecord)
    (c : row) (rest : list row) (out_centers : list CenterSnapshot) (unmatched : list Z) :
  reconcile existing api_by_no api_by_name xy_map (c :: rest) out_centers unmatched
  = match row_id c with
    | None => reconcile existing api_by_no api_by_name xy_map rest out_centers unmatched
    | Some cid =>
        let sn := snapshot existing api_by_no api_by_name xy_map c cid in
        reconcile existing api_by_no api_by_name xy_map rest
                  (out_centers ++ [fst sn])
                  (if snd sn then unmatched ++ [cid] else unmatched)
    end.
Proof. reflexivity. Qed.

Lemma omap_cons {A C : Type} (f : A -> option C) (x : A) (l : list A) :
  omap f (x :: l) = match f x with Some y => y :: omap f l | None => omap f l end.
Proof. reflexivity. Qed.

(** The snapshots the loop emits for a roster, and the identifiers it
    records as unmatched. *)
Lemma reconcile_spec (existing : option Existing) (api_by_no : gmap Z pydict)
    (api_by_name : gmap str pydict) (xy_map : gmap Z GeoRecord)
    (centers_ : list row) (out_centers : list CenterSnapshot) (unmatched : list Z) :
  reconcile existing api_by_no api_by_name xy_map centers_ out_centers unmatched
  = (out_centers
       ++ omap (fun c => cid ← row_id c;
                         Some (fst (snapshot existing api_by_no api_by_name xy_map c cid)))
               centers_,
     unmatched
       ++ omap (fun c => cid ← row_id c;
                         if snd (snapshot existing api_by_no api_by_name xy_map c cid)
                         then Some cid else None)
               centers_).
Proof.
  revert out_centers unmatched.
  induction centers_ as [|c rest IH]; intros out_centers unmatched.
  - simpl. by rewrite !app_nil_r.
  - rewrite reconcile_cons, !omap_cons.
    destruct (row_id c) as [cid|]; [|apply IH].
    cbv zeta. rewrite IH. cbn [mbind option_bind].
    destruct (snd (snapshot existing api_by_no api_by_name xy_map c cid));
      by rewrite <- !app_assoc.
Qed.

Lemma reconcile_app (existing : option Existing) (api_by_no : gmap Z pydict)
    (api_by_name : gmap str pydict) (xy_map : gmap Z GeoRecord)
    (l1 l2 : list row) (out_centers : list CenterSnapshot) (unmatched : list Z) :
  reconcile existing api_by_no api_by_name xy_map (l1 ++ l2) out_centers unmatched
  = reconcile existing api_by_no api_by_name xy_map l2
      (fst (reconcile existing api_by_no api_by_name xy_map l1 out_centers unmatched))
      (snd (reconcile existing api_by_no api_by_name xy_map l1 out_centers unmatched)).
Proof.
  rewrite !reconcile_spec, !omap_app. simpl. by rewrite !app_assoc.
Qed.

Lemma snapshot_id (existing : option Existing) (api_by_no : gmap Z pydict)
    (api_by_name : gmap str pydict) (xy_map : gmap Z GeoRecord) (c : row) (cid : Z) :
  id (fst (snapshot existing api_by_no api_by_name xy_map c cid)) = cid.
Proof. reflexivity. Qed.

Lemma snapshot_unmatched (existing : option Existing) (api_by_no : gmap Z pydict)
    (api_by_name : gmap str pydict) (xy_map : gmap Z GeoRecord) (c : row) (cid : Z) :
  snd (snapshot existing api_by_no api_by_name xy_map c cid)
  = match lookup_rec api_by_no api_by_name cid (field c "機構名稱") with
    | Some _ => false
    | None => true
    end.
Proof. reflexivity. Qed.

Lemma snapshot_evaluation (existing : option Existing) (api_by_no : gmap Z pydict)
    (api_by_name : gmap str pydict) (xy_map : gmap Z GeoRecord) (c : row) (cid : Z) :
  evaluation_by_year (fst (snapshot existing api_by_no api_by_name xy_map c cid))
  = sorted_items
      (remote_layer (lookup_rec api_by_no api_by_name cid (field c "機構名稱"))
       ∪ merge_legacy c (history existing cid)).
Proof.
  unfold snapshot; simpl. unfold remote_layer.
  destruct (lookup_rec api_by_no api_by_name cid (field c "機構名稱")); [done|].
  by rewrite (left_id_L ∅ (∪)).
Qed.

Lemma snapshot_geo (existing : option Existing) (api_by_no : gmap Z pydict)
    (api_by_name : gmap str pydict) (xy_map : gmap Z GeoRecord) (c : row) (cid : Z) :
  let snap := fst (snapshot existing api_by_no api_by_name xy_map c cid) in
  response_address snap = geo_response_address <$> xy_map !! cid
  /\ lat snap = xy_map !! cid ≫= geo_lat
  /\ lng snap = xy_map !! cid ≫= geo_lng.
Proof. by repeat split. Qed.

Lemma merge_legacy_layer (c : row) (m : gmap str str) :
  merge_legacy c m = legacy_layer c ∪ m.
Proof.
  unfold merge_legacy, legacy_layer.
  destruct (LEGACY_EVAL_RE (field c "評鑑結果")) as [[yr grade]|].
  - by rewrite insert_union_singleton_l.
  - by rewrite (left_id_L ∅ (∪)).
Qed.

(** ** The indexes of the remote records *)

Lemma api_no_nil : api_no [] = None.
Proof. reflexivity. Qed.

Lemma api_name_nil : api_name [] = [].
Proof. reflexivity. Qed.

Lemma api_no_truthy (rec : pydict) (no : Z) :
  api_no rec = Some no -> truthy (PDict rec) = true.
Proof. destruct rec; [by rewrite api_no_nil | done]. Qed.

Lemma api_name_truthy (rec : pydict) :
  api_name rec <> [] -> truthy (PDict rec) = true.
Proof. destruct rec; [by rewrite api_name_nil | done]. Qed.

Lemma index_api_snoc (records : list pydict) (rec : pydict) :
  index_api (records ++ [rec])
  = (match api_no rec with
     | Some no => <[no := rec]> (fst (index_api records))
     | None => fst (index_api records)
     end,
     if negb (Str.eqb (api_name rec) [])
     then <[api_name rec := rec]> (snd (index_api records))
     else snd (index_api records)).
Proof.
  unfold index_api. rewrite fold_left_app. simpl.
  by destruct (fold_left _ records (∅, ∅)).
Qed.

(** A record found by number has that number; none is found exactly when
    no record has it. *)
Lemma index_by_no_Some (records : list pydict) (cid : Z) (rec : pydict) :
  fst (index_api records) !! cid = Some rec ->
  rec ∈ records /\ api_no rec = Some cid.
Proof.
  induction records as [|r rs IH] using rev_ind; [done|].
  rewrite index_api_snoc. simpl. intros H.
  destruct (api_no r) as [no|] eqn:E.
  - destruct (decide (no = cid)) as [->|Hne].
    + rewrite lookup_insert_eq in H. injection H as <-.
      split; [apply elem_of_app; right; apply list_elem_of_singleton; done | done].
    + rewrite lookup_insert_ne in H by done.
      destruct (IH H) as [Hin Hno]. split; [apply elem_of_app; by left | done].
  - destruct (IH H) as [Hin Hno]. split; [apply elem_of_app; by left | done].
Qed.

Lemma index_by_no_None (records : list pydict) (cid : Z) :
  fst (index_api records) !! cid = None <->
  existsb (matches_by_id cid) records = false.
Proof.
  induction records as [|r rs IH] using rev_ind; [done|].
  rewrite index_api_snoc, existsb_app. simpl. rewrite orb_false_r.
  unfold matches_by_id at 2.
  destruct (api_no r) as [no|] eqn:E.
  - destruct (decide (no = cid)) as [->|Hne].
    + rewrite lookup_insert_eq, bool_decide_true by done.
      rewrite orb_true_r. done.
    + rewrite lookup_insert_ne, bool_decide_false by congruence.
      by rewrite orb_false_r.
  - rewrite bool_decide_false by done. by rewrite orb_false_r.
Qed.

Lemma index_by_name_Some (records : list pydict) (name_ : str) (rec : pydict) :
  snd (index_api records) !! name_ = Some rec ->
  rec ∈ records /\ api_name rec = name_ /\ name_ <> [].
Proof.
  induction records as [|r rs IH] using rev_ind; [done|].
  rewrite index_api_snoc. simpl. intros H.
  destruct (Str.eqb (api_name r) []) eqn:E; simpl in H.
  { destruct (IH H) as [Hin Hno]. split; [apply elem_of_app; by left | done]. }
  apply eqb_neq in E.
  destruct (decide (api_name r = name_)) as [<-|Hne].
  - rewrite lookup_insert_eq in H. injection H as <-.
    split; [apply elem_of_app; right; apply list_elem_of_singleton; done | done].
  - rewrite lookup_insert_ne in H by done.
    destruct (IH H) as [Hin Hno]. split; [apply elem_of_app; by left | done].
Qed.

Lemma index_by_name_None (records : list pydict) (name_ : str) :
  snd (index_api records) !! name_ = None <->
  existsb (matches_by_name name_) records = false.
Proof.
  induction records as [|r rs IH] using rev_ind; [done|].
  rewrite index_api_snoc, existsb_app. simpl. rewrite orb_false_r.
  unfold matches_by_name at 2.
  destruct (Str.eqb (api_name r) []) eqn:E; simpl.
  - by rewrite andb_false_r, orb_false_r.
  - rewrite andb_true_r.
    destruct (Str.eqb (api_name r) name_) eqn:E2.
    + apply eqb_eq in E2 as <-. rewrite lookup_insert_eq, orb_true_r. done.
    + apply eqb_neq in E2. rewrite lookup_insert_ne by done.
      by rewrite orb_false_r.
Qed.

(** The two-stage lookup finds nothing exactly for the rows without a
    remote match. *)
Lemma lookup_rec_index (records : list pydict) (c : row) (cid : Z) :
  match lookup_rec (fst (index_api records)) (snd (index_api records))
                   cid (field c "機構名稱") with
  | Some _ => true
  | None => false
  end = remote_match records c cid.
Proof.
  unfold lookup_rec, remote_match.
  destruct (fst (index_api records) !! cid) as [rec|] eqn:E1.
  - destruct (index_by_no_Some _ _ _ E1) as [Hin Hno].
    rewrite (api_no_truthy _ _ Hno). cbv beta iota. rewrite (api_no_truthy _ _ Hno).
    destruct (existsb (matches_by_id cid) records) eqn:E3; [done|].
    apply index_by_no_None in E3.
    discriminate (eq_trans (eq_sym E1) E3).
  - apply index_by_no_None in E1 as ->. rewrite orb_false_l.
    destruct (snd (index_api records) !! field c "機構名稱") as [rec|] eqn:E2.
    + destruct (index_by_name_Some _ _ _ E2) as (Hin & Hname & Hne).
      rewrite api_name_truthy by congruence.
      destruct (existsb (matches_by_name (field c "機構名稱")) records) eqn:E3; [done|].
      apply index_by_name_None in E3.
      discriminate (eq_trans (eq_sym E2) E3).
    + by apply index_by_name_None in E2 as ->.
Qed.

(** ** Unmatched accounting *)

Lemma snapshot_emitted (existing : option Existing) (api_by_no : gmap Z pydict)
    (api_by_name : gmap str pydict) (xy_map : gmap Z GeoRecord)
    (centers_ : list row) (c : row) (cid : Z) :
  c ∈ centers_ -> row_id c = Some cid ->
  fst (snapshot existing api_by_no api_by_name xy_map c cid)
    ∈ fst (reconcile existing api_by_no api_by_name xy_map centers_ [] []).
Proof.
  intros Hin Hid. rewrite reconcile_spec. simpl.
  apply list_elem_of_omap. exists c. split; [done|]. by rewrite Hid.
Qed.

Lemma reconcile_unmatched (existing : option Existing) (records : list pydict)
    (xy_map : gmap Z GeoRecord) (centers_ : list row) :
  snd (reconcile existing (fst (index_api records)) (snd (index_api records))
                 xy_map centers_ [] [])
  = unmatched_rows records centers_.
Proof.
  rewrite reconcile_spec. simpl. unfold unmatched_rows.
  apply list_omap_ext, Forall2_same_length_lookup_2; [done|].
  intros i c c' Hc Hc'. assert (c' = c) as -> by congruence.
  destruct (row_id c) as [cid|]; [cbn [mbind option_bind]|done].
  rewrite <- lookup_rec_index.
  by destruct (lookup_rec _ _ cid _).
Qed.

(** The history the loop seeds a row with is the mapping the previous
    document holds for the row's identifier. *)
Lemma history_prior_mapping (existing : option Existing) (cid : Z) :
  history existing cid = prior_mapping existing cid.
Proof.
  unfold history, prior_mapping. destruct existing as [e|]; [|done].
  destruct (existing_truthy e) eqn:Et.
  - induction (default [] (existing_centers e)) as [|old l IH]; [done|].
    cbn [List.find]. rewrite filter_cons.
    destruct (decide (safe_int (old_id old) = Some cid)) as [Hd|Hd].
    + by rewrite bool_decide_eq_true_2.
    + by rewrite bool_decide_eq_false_2.
  - unfold existing_truthy in Et.
    by destruct (existing_meta e), (existing_centers e) as [[|]|], (existing_other e).
Qed.

(** C7.  A roster row whose identifier parses and that no remote record
    matches, by identifier or by name, has its identifier appended to the
    unmatched list and is still emitted, with the year -> grade mapping
    merged from the history and the legacy field: for every year, the
    grade of the legacy field if it supplies that year, else the grade
    the previous document holds for the identifier, and no other pair.
    The meta list is the first 50 unmatched identifiers in roster order,
    and the count is the number of all of them. *)
Theorem unmatched_accounting (w : World) (existing : option Existing)
    (records : list pydict) (xy_map : gmap Z GeoRecord) (centers_ : list row)
    (api_meta : ApiMeta) :
  let idx := index_api records in
  let r := reconcile existing (fst idx) (snd idx) xy_map centers_ [] [] in
  let m := meta (build_out w api_meta (fst r) (snd r)) in
  (forall (c : row) (cid : Z),
      c ∈ centers_ -> row_id c = Some cid -> remote_match records c cid = false ->
      cid ∈ snd r
      /\ exists snap, snap ∈ fst r /\ id snap = cid
           /\ evaluation_by_year snap
              = sorted_items (merge_legacy c (history existing cid))
           /\ (forall y, grade_of snap y
                         = match legacy_layer c !! y with
                           | Some g => Some g
                           | None => prior_mapping existing cid !! y
                           end)
           /\ (forall y g, (y, g) ∈ evaluation_by_year snap
                           <-> grade_of snap y = Some g))
  /\ snd r = unmatched_rows records centers_
  /\ unmatched_center_ids_in_base_list m = take 50 (unmatched_rows records centers_)
  /\ unmatched_count m = length (unmatched_rows records centers_).
Proof.
  intros idx r m. subst idx r m.
  rewrite reconcile_unmatched. simpl.
  split; [|done].
  intros c cid Hin Hid Hno. split.
  - apply list_elem_of_omap. exists c. split; [done|]. by rewrite Hid; simpl; rewrite Hno.
  - exists (fst (snapshot existing (fst (index_api records)) (snd (index_api records))
                          xy_map c cid)).
    split; [by apply snapshot_emitted|]. split; [done|].
    unfold grade_of. rewrite snapshot_evaluation.
    pose proof (lookup_rec_index records c cid) as H. rewrite Hno in H.
    destruct (lookup_rec _ _ cid _); [done|].
    cbn [remote_layer]. rewrite (left_id_L ∅ (∪)).
    split; [done|]. split.
    + intros y.
      rewrite list_to_map_sorted_items, merge_legacy_layer, history_prior_mapping.
      rewrite lookup_union.
      by destruct (legacy_layer c !! y), (prior_mapping existing cid !! y).
    + intros y g. by rewrite list_to_map_sorted_items, elem_of_sorted_items.
Qed.

(** ** Rows whose identifier does not parse *)

Lemma reconcile_skip (existing : option Existing) (api_by_no : gmap Z pydict)
    (api_by_name : gmap str pydict) (xy_map : gmap Z GeoRecord)
    (pre post : list row) (c : row) (out_centers : list CenterSnapshot)
    (unmatched : list Z) :
  row_id c = None ->
  reconcile existing api_by_no api_by_name xy_map (pre ++ c :: post) out_centers unmatched
  = reconcile existing api_by_no api_by_name xy_map (pre ++ post) out_centers unmatched.
Proof.
  intros Hid. rewrite !reconcile_app, reconcile_cons, Hid. reflexivity.
Qed.

Lemma fetch_loop_with_centers_csv (w : World) (cs : option (list row)) (fuel : nat)
    (offset_ : Z) (out : list pydict) (meta_ : option ApiMeta) :
  fetch_loop (with_centers_csv w cs) fuel offset_ out meta_
  = fetch_loop w fuel offset_ out meta_.
Proof.
  revert offset_ out meta_. induction fuel as [|fuel IH]; intros; simpl; [done|].
  destruct (http_get w offset_); [done|].
  destruct (_ <=? _); [done|]. apply IH.
Qed.

Lemma build_document_with_centers_csv (w : World) (cs : option (list row))
    (existing : option Existing) (centers_ : list row) (fuel : nat) :
  build_document (with_centers_csv w cs) existing centers_ fuel
  = build_document w existing centers_ fuel.
Proof.
  unfold build_document, fetch_all_records.
  rewrite fetch_loop_with_centers_csv. reflexivity.
Qed.

Lemma main_with_centers_csv (w : World) (cs : list row) (fuel : nat) :
  main (with_centers_csv w (Some cs)) fuel
  = existing ← load_existing_json w;
    run ← should_run_update w existing;
    if negb run then Ok Skip else
    out ← build_document w existing cs fuel;
    Ok (write_if_changed (text <$> data_json w) (json_dumps out)).
Proof.
  unfold main.
  change (load_existing_json (with_centers_csv w (Some cs))) with (load_existing_json w).
  destruct (load_existing_json w) as [existing| |]; simpl; [|done..].
  change (should_run_update (with_centers_csv w (Some cs)) existing)
    with (should_run_update w existing).
  destruct (should_run_update w existing) as [[|]| |]; simpl; [|done..].
  by rewrite build_document_with_centers_csv.
Qed.

Lemma build_document_skip (w : World) (existing : option Existing)
    (pre post : list row) (c : row) (fuel : nat) :
  row_id c = None ->
  build_document w existing (pre ++ c :: post) fuel
  = build_document w existing (pre ++ post) fuel.
Proof.
  intros Hid. unfold build_document.
  destruct (fetch_all_records w fuel) as [[records api_meta]| |]; simpl; [|done..].
  destruct (index_api records) as [api_by_no api_by_name].
  by rewrite reconcile_skip.
Qed.

(** C9.  A roster row whose identifier does not parse as an integer
    leaves no trace: the loop emits the same snapshots and records the
    same unmatched identifiers as without the row, and the whole run ends
    as it does on the roster without the row. *)
Theorem unparseable_id_dropped (w : World) (fuel : nat) (pre post : list row) (c : row) :
  row_id c = None ->
  (forall (existing : option Existing) (api_by_no : gmap Z pydict)
          (api_by_name : gmap str pydict) (xy_map : gmap Z GeoRecord)
          (out_centers : list CenterSnapshot) (unmatched : list Z),
      reconcile existing api_by_no api_by_name xy_map (pre ++ c :: post)
                out_centers unmatched
      = reconcile existing api_by_no api_by_name xy_map (pre ++ post)
                  out_centers unmatched)
  /\ main (with_centers_csv w (Some (pre ++ c :: post))) fuel
     = main (with_centers_csv w (Some (pre ++ post))) fuel.
Proof.
  intros Hid. split.
  - intros. by apply reconcile_skip.
  - rewrite !main_with_centers_csv.
    destruct (load_existing_json w) as [existing| |]; simpl; [|done..].
    destruct (should_run_update w existing) as [[|]| |]; simpl; [|done..].
    by rewrite build_document_skip.
Qed.

(** ** The identifier 0 *)

Lemma load_xy_map_snoc (rows : list row) (r : row) :
  load_xy_map (rows ++ [r])
  = match xy_id r with
    | None => load_xy_map rows
    | Some cid =>
        if cid =? 0 then load_xy_map rows else
        <[cid := mk_geo (field r "Response_Address")
                        (fst (normalize_lat_lng (fst (xy_lat_lng r)) (snd (xy_lat_lng r))))
                        (snd (normalize_lat_lng (fst (xy_lat_lng r)) (snd (xy_lat_lng r))))]>
          (load_xy_map rows)
    end.
Proof.
  unfold load_xy_map, xy_id. rewrite fold_left_app. simpl.
  destruct (safe_int _) as [cid|]; [|done].
  destruct (cid =? 0); [done|].
  destruct (xy_lat_lng r) as [la ln]. simpl.
  by destruct (normalize_lat_lng la ln).
Qed.

Lemma load_xy_map_zero (rows : list row) : load_xy_map rows !! 0 = None.
Proof.
  induction rows as [|r rows IH] using rev_ind; [done|].
  rewrite load_xy_map_snoc.
  destruct (xy_id r) as [cid|]; [|done].
  destruct (Z.eqb_spec cid 0); [done|].
  by rewrite lookup_insert_ne.
Qed.

Lemma load_xy_map_skip (pre post : list row) (r : row) :
  xy_id r = None \/ xy_id r = Some 0 ->
  load_xy_map (pre ++ r :: post) = load_xy_map (pre ++ post).
Proof.
  intros Hid. unfold load_xy_map. rewrite !fold_left_app. simpl.
  f_equal. unfold xy_id in Hid. by destruct Hid as [-> | ->].
Qed.

(** C10.  The geocode loader never stores an entry under the identifier
    0: a geocode row whose id parses to 0 is skipped like a row whose id
    does not parse.  A roster row with identifier 0 is emitted all the
    same, and its geocode fields are null whatever the geocode table
    holds. *)
Theorem id_zero_asymmetry (rows : list row) :
  load_xy_map rows !! 0 = None
  /\ (forall (pre post : list row) (r : row),
         xy_id r = Some 0 ->
         load_xy_map (pre ++ r :: post) = load_xy_map (pre ++ post))
  /\ (forall (existing : option Existing) (api_by_no : gmap Z pydict)
             (api_by_name : gmap str pydict) (centers_ : list row) (c : row),
         c ∈ centers_ -> row_id c = Some 0 ->
         exists snap,
           snap ∈ fst (reconcile existing api_by_no api_by_name (load_xy_map rows)
                                 centers_ [] [])
           /\ id snap = 0 /\ name snap = field c "機構名稱"
           /\ response_address snap = None /\ lat snap = None /\ lng snap = None).
Proof.
  split; [apply load_xy_map_zero|]. split.
  - intros pre post r Hid. apply load_xy_map_skip. by right.
  - intros existing api_by_no api_by_name centers_ c Hin Hid.
    exists (fst (snapshot existing api_by_no api_by_name (load_xy_map rows) c 0)).
    split; [by apply snapshot_emitted|].
    destruct (snapshot_geo existing api_by_no api_by_name (load_xy_map rows) c 0)
      as (Ha & Hla & Hln).
    rewrite Ha, Hla, Hln, load_xy_map_zero. by repeat split.
Qed.

(** ** The layers of the year -> grade mapping *)

Lemma union_lookup_first (m1 m2 : gmap str str) (y : str) :
  (m1 ∪ m2) !! y = match m1 !! y with Some g => Some g | None => m2 !! y end.
Proof.
  destruct (m1 !! y) as [g|] eqn:E.
  - by apply lookup_union_Some_l.
  - by apply lookup_union_r.
Qed.


(** The legacy field supplies at most one year. *)
Lemma legacy_layer_single (c : row) :
  legacy_layer c = ∅
  \/ exists yr grade, LEGACY_EVAL_RE (field c "評鑑結果") = Some (yr, grade)
                      /\ legacy_layer c = {[ yr := strip grade ]}.
Proof.
  unfold legacy_layer.
  destruct (LEGACY_EVAL_RE _) as [[yr grade]|]; [right; eauto | by left].
Qed.


(** ** History *)



(** ** The paging loop *)

Lemma offset_next (k : nat) :
  Z.of_nat k * DEFAULT_LIMIT + DEFAULT_LIMIT = Z.of_nat (S k) * DEFAULT_LIMIT.
Proof. unfold DEFAULT_LIMIT. lia. Qed.

(** One iteration, at page [k] with the records of the earlier pages. *)
Lemma fetch_loop_step (w : World) (fuel : nat) (k : nat) (meta_ : option ApiMeta) :
  fetch_loop w (S fuel) (Z.of_nat k * DEFAULT_LIMIT) (accumulated w k) meta_
  = if page_ok w k then
      let m := match meta_ with
               | Some m => m
               | None => mk_api_meta (count (page_result w k)) (limit (page_result w k))
                                     (offset (page_result w k))
               end in
      if reached w k then Ok (accumulated w (S k), m)
      else fetch_loop w fuel (Z.of_nat (S k) * DEFAULT_LIMIT) (accumulated w (S k)) (Some m)
    else Raise HTTPError.
Proof.
  cbn [fetch_loop accumulated]. unfold page_ok, reached. cbn [accumulated].
  unfold page_result, page. rewrite <- offset_next.
  destruct (http_get w (Z.of_nat k * DEFAULT_LIMIT)) as [|[r|]]; [done|..]; cbn.
  - destruct (count r) as [n|]; cbn; [done|]. by rewrite Z.leb_refl.
  - by rewrite Z.leb_refl.
Qed.

Lemma fetch_loop_first (w : World) (fuel : nat) :
  fetch_loop w (S fuel) 0 [] None
  = fetch_loop w (S fuel) (Z.of_nat 0 * DEFAULT_LIMIT) (accumulated w 0) None.
Proof. reflexivity. Qed.

(** From page [k] on, with the metadata [m] already taken: the loop stops
    at the first page [n] that reaches its count. *)
Lemma fetch_loop_stops (w : World) (n : nat) (m : ApiMeta) (fuel k : nat) :
  (k <= n)%nat ->
  (forall i, (k <= i <= n)%nat -> page_ok w i = true) ->
  (forall i, (k <= i < n)%nat -> reached w i = false) ->
  reached w n = true ->
  (n - k < fuel)%nat ->
  fetch_loop w fuel (Z.of_nat k * DEFAULT_LIMIT) (accumulated w k) (Some m)
  = Ok (accumulated w (S n), m).
Proof.
  revert k. induction fuel as [|fuel IH]; intros k Hk Hok Hnot Hn Hfuel; [lia|].
  rewrite fetch_loop_step, Hok by lia.
  destruct (decide (k = n)) as [->|Hne].
  - by rewrite Hn.
  - rewrite Hnot by lia. cbv zeta. apply IH; try done; try lia.
    + intros i Hi. apply Hok. lia.
    + intros i Hi. apply Hnot. lia.
Qed.

Lemma fetch_loop_runs (w : World) (m : ApiMeta) (fuel k : nat) :
  (forall i, (k <= i < k + fuel)%nat -> page_ok w i = true /\ reached w i = false) ->
  fetch_loop w fuel (Z.of_nat k * DEFAULT_LIMIT) (accumulated w k) (Some m)
  = OutOfFuel.
Proof.
  revert k. induction fuel as [|fuel IH]; intros k H; [done|].
  rewrite fetch_loop_step.
  destruct (H k) as [-> ->]; [lia|]. cbv zeta.
  apply IH. intros i Hi. apply H. lia.
Qed.

(** C8.  The loop fetches the pages at the offsets 0, 1000, 2000, ... and
    appends the records of each page; it ends at the first page after
    which the number of records reaches the count the page reports, and
    returns the records of all the pages fetched with the count, limit and
    offset reported by the first page.  Until then it is still paging. *)
Theorem paging_until_count_reached (w : World) (n : nat) :
  (forall i, (i <= n)%nat -> page_ok w i = true) ->
  (forall i, (i < n)%nat -> reached w i = false) ->
  reached w n = true ->
  (forall fuel, (n < fuel)%nat ->
     fetch_all_records w fuel = Ok (accumulated w (S n), first_page_meta w))
  /\ (forall fuel, (fuel <= n)%nat -> fetch_all_records w fuel = OutOfFuel).
Proof.
  intros Hok Hnot Hn. split.
  - intros [|fuel] Hfuel; [lia|].
    unfold fetch_all_records. rewrite fetch_loop_first, fetch_loop_step, Hok by lia.
    fold (first_page_meta w).
    destruct n as [|n].
    + by rewrite Hn.
    + rewrite Hnot by lia. cbv zeta.
      apply fetch_loop_stops; try done; try lia.
      * intros i Hi. apply Hok. lia.
      * intros i Hi. apply Hnot. lia.
  - intros [|fuel] Hfuel; [done|].
    unfold fetch_all_records. rewrite fetch_loop_first, fetch_loop_step, Hok by lia.
    rewrite Hnot by lia. cbv zeta.
    apply fetch_loop_runs. intros i Hi. split; [apply Hok | apply Hnot]; lia.
Qed.

(** ** The staleness gate *)

Lemma should_run_update_forced (w : World) (existing : option Existing) :
  strip (default [] (environ w !! u "FORCE_UPDATE")) = u "1" ->
  should_run_update w existing = Ok true.
Proof.
  intros H. unfold should_run_update. by rewrite H, eqb_refl.
Qed.

Lemma should_run_update_absent (w : World) : should_run_update w None = Ok true.
Proof. unfold should_run_update. by destruct (Str.eqb _ _). Qed.

(** The gate answers: it never raises. *)
Lemma should_run_update_total (w : World) (existing : option Existing) :
  exists run, should_run_update w existing = Ok run.
Proof.
  unfold should_run_update.
  destruct (Str.eqb _ _); [eauto|].
  destruct existing as [e|]; [|eauto].
  destruct (negb (existing_truthy e)); [eauto|].
  destruct (negb (truthy _)); [eauto|].
  destruct (datetime_fromisoformat _) as [last_dt|]; [|eauto].
  destruct (tzinfo last_dt) as [off|] eqn:Htz; unfold Datetime.sub; simpl;
    rewrite ?Htz; simpl; eauto.
Qed.

Lemma sub_aware (a b : datetime) (oa ob : Z) :
  tzinfo a = Some oa -> tzinfo b = Some ob ->
  Datetime.sub a b = Ok ((wall_us a - oa) - (wall_us b - ob)).
Proof. intros Ha Hb. unfold Datetime.sub. by rewrite Ha, Hb. Qed.

Lemma wall_us_replace_tzinfo (dt : datetime) (tz : Z) :
  wall_us (replace_tzinfo dt tz) = wall_us dt.
Proof.
  unfold wall_us, replace_tzinfo.
  cbn [year month day hour minute second microsecond]. reflexivity.
Qed.

Lemma bind_Ok {A C : Type} (a : A) (k : A -> result C) : (Ok a ≫= k) = k a.
Proof. reflexivity. Qed.

Lemma leb_bool_decide (a b : Z) : (a <=? b) = bool_decide (a <= b).
Proof.
  destruct (Z.leb_spec a b); symmetry;
    [apply bool_decide_eq_true_2 | apply bool_decide_eq_false_2]; lia.
Qed.

(** C5.  Without the force flag, and with a prior document whose
    [last_successful_update] parses (after a space is read as the
    separator [T]), the gate permits the run exactly when the time from
    that timestamp, read in UTC+8 unless it carries its own offset, to
    the clock in UTC+8 is at least 10 days: a timestamp 10 days old
    permits the run, one 9 days and 23 hours old does not. *)
Theorem gate_interval (w : World) (e : Existing) (last_dt : datetime) :
  let last := or_none (dict_get (u "last_successful_update")
                                (default [] (existing_meta e))) in
  strip (default [] (environ w !! u "FORCE_UPDATE")) <> u "1" ->
  truthy last = true ->
  datetime_fromisoformat (replace SPACE LETTER_T (py_str last)) = Some last_dt ->
  should_run_update w (Some e)
  = Ok (bool_decide (timedelta_days 10 <= elapsed w last_dt))
  /\ (elapsed w last_dt = timedelta_days 10 ->
      should_run_update w (Some e) = Ok true)
  /\ (elapsed w last_dt = timedelta_days 9 + timedelta_hours 23 ->
      should_run_update w (Some e) = Ok false).
Proof.
  intros last Hforce Hlast Hparse.
  assert (should_run_update w (Some e)
          = Ok (bool_decide (timedelta_days 10 <= elapsed w last_dt))) as Hrun.
  { unfold should_run_update.
    apply eqb_neq in Hforce. rewrite Hforce.
    assert (existing_truthy e = true) as ->.
    { unfold existing_truthy. destruct (existing_meta e); [done|].
      subst last. simpl in Hlast. discriminate. }
    fold last. rewrite Hlast, Hparse. cbn [negb].
    unfold elapsed, datetime_now, UPDATE_INTERVAL_DAYS.
    destruct (tzinfo last_dt) as [off|] eqn:Htz.
    - rewrite (sub_aware _ _ (timedelta_hours 8) off) by done.
      rewrite bind_Ok, wall_us_replace_tzinfo, leb_bool_decide. reflexivity.
    - rewrite (sub_aware _ _ (timedelta_hours 8) (timedelta_hours 8)) by done.
      rewrite bind_Ok, !wall_us_replace_tzinfo, leb_bool_decide. reflexivity. }
  split; [done|]. rewrite Hrun. split; intros ->; reflexivity.
Qed.

(** ** The previous document *)

Lemma history_absent (cid : Z) : history None cid = ∅.
Proof. reflexivity. Qed.

(** C1, as the script has it.  A previous document that is not JSON makes
    [json.load] raise, and nothing catches it: the run ends with the
    exception before the gate is asked.  It is the missing file that lets
    the gate permit the run with no history seeded. *)
Theorem malformed_prior_document_raises (w : World) (f : JsonFile) (fuel : nat) :
  data_json w = Some f ->
  loaded f = None ->
  load_existing_json w = Raise JSONDecodeError
  /\ main w fuel = Raise JSONDecodeError
  /\ load_existing_json (with_data_json w None) = Ok None
  /\ should_run_update (with_data_json w None) None = Ok true
  /\ (forall cid, history None cid = ∅).
Proof.
  intros Hf Hl.
  assert (load_existing_json w = Raise JSONDecodeError) as H.
  { unfold load_existing_json. by rewrite Hf, Hl. }
  split; [done|]. split; [unfold main; by rewrite H|].
  split; [done|]. split; [apply should_run_update_absent | done].
Qed.

(** ** The writer *)

(** What the writer writes ends with a line feed that the text it compares
    does not have: on the file it wrote itself, it finds a difference. *)
Lemma write_if_changed_again (old_json : option str) (new_json written : str) :
  write_if_changed old_json new_json = Updated written ->
  written = new_json ++ [LF]
  /\ write_if_changed (Some written) new_json = Updated written.
Proof.
  unfold write_if_changed. intros H.
  assert (written = new_json ++ [LF]) as ->.
  { destruct old_json as [old|]; [destruct (Str.eqb old new_json)|]; congruence. }
  split; [done|]. by rewrite eqb_app_LF.
Qed.

(** A run that reaches the writer, on the file a run leaves for the same
    serialised document, writes it again. *)
Lemma main_rewrites (w : World) (fuel : nat) (existing : option Existing)
    (centers_ : list row) (out : Document) :
  load_existing_json w = Ok existing ->
  should_run_update w existing = Ok true ->
  centers_csv w = Some centers_ ->
  build_document w existing centers_ fuel = Ok out ->
  text <$> data_json w = Some (json_dumps out ++ [LF]) ->
  main w fuel = Ok (Updated (json_dumps out ++ [LF])).
Proof.
  intros Hl Hg Hc Hb Ht. unfold main.
  rewrite Hl. simpl. rewrite Hg. simpl. rewrite Hc, Hb. simpl.
  rewrite Ht. unfold write_if_changed. by rewrite eqb_app_LF.
Qed.

(** ** The geo normalizer *)

(** C6.  When both coordinates are present, the magnitude of the
    latitude exceeds 90 and that of the longitude does not, the two are
    swapped; in every other case, a missing coordinate included, the pair
    is returned as it is. *)
Theorem normalize_lat_lng_swaps (lat_ lng_ : option float) :
  (forall la ln, lat_ = Some la -> lng_ = Some ln ->
                 exceeds_90 la = true -> within_90 ln = true ->
                 normalize_lat_lng lat_ lng_ = (Some ln, Some la))
  /\ (forall la ln, lat_ = Some la -> lng_ = Some ln ->
                    exceeds_90 la = false \/ within_90 ln = false ->
                    normalize_lat_lng lat_ lng_ = (lat_, lng_))
  /\ (lat_ = None \/ lng_ = None -> normalize_lat_lng lat_ lng_ = (lat_, lng_)).
Proof.
  unfold normalize_lat_lng, exceeds_90, within_90. repeat split.
  - intros la ln -> -> H1 H2. by rewrite H1, H2.
  - intros la ln -> -> [H|H]; rewrite H; [done|]. by rewrite andb_false_r.
  - intros [-> | ->]; [done|]. by destruct lat_.
Qed.

(** ** More on the loaders *)

(** A failed GET ends the paging with the error: no page is skipped. *)
Lemma paging_aborts_on_error (w : World) (n : nat) :
  (forall i, (i < n)%nat -> page_ok w i = true /\ reached w i = false) ->
  page_ok w n = false ->
  forall fuel, (n < fuel)%nat -> fetch_all_records w fuel = Raise HTTPError.
Proof.
  intros Hrun Herr fuel Hfuel. unfold fetch_all_records.
  assert (forall fuel k meta_,
             (k <= n)%nat -> (n - k < fuel)%nat ->
             fetch_loop w fuel (Z.of_nat k * DEFAULT_LIMIT) (accumulated w k) meta_
             = Raise HTTPError) as H.
  { clear fuel Hfuel. induction fuel as [|fuel IH]; intros k meta_ Hk Hfuel; [lia|].
    rewrite fetch_loop_step.
    destruct (decide (k = n)) as [->|Hne]; [by rewrite Herr|].
    destruct (Hrun k) as [-> ->]; [lia|]. cbv zeta. apply IH; lia. }
  destruct fuel as [|fuel]; [lia|].
  rewrite fetch_loop_first. apply H; lia.
Qed.

(** What the pattern of year columns accepts: three decimal digits and
    the year sign (and, as [$] allows, one line feed). *)
Lemma YEAR_COL_RE_Some (s yr : str) :
  YEAR_COL_RE s = Some yr ->
  exists a b c, yr = [a; b; c]
    /\ isdecimal a = true /\ isdecimal b = true /\ isdecimal c = true
    /\ (s = [a; b; c; CJK_YEAR] \/ s = [a; b; c; CJK_YEAR; LF]).
Proof.
  unfold YEAR_COL_RE. destruct s as [|a [|b [|c [|y e]]]]; try done.
  destruct (isdecimal a) eqn:Ha, (isdecimal b) eqn:Hb, (isdecimal c) eqn:Hc; try done.
  destruct (N.eqb_spec y CJK_YEAR) as [->|]; [|done]. simpl.
  destruct (Str.eqb e []) eqn:E1; simpl.
  - apply eqb_eq in E1 as ->. intros [= <-]. exists a, b, c.
    do 4 (split; [done|]). by left.
  - destruct (Str.eqb e [LF]) eqn:E2; [|done].
    apply eqb_eq in E2 as ->. intros [= <-]. exists a, b, c.
    do 4 (split; [done|]). by right.
Qed.

(** The year columns of a record are read in order: a later column for
    the same year overwrites an earlier one. *)
Lemma parse_eval_years_snoc (rec : pydict) (k : str) (v : pyval) :
  parse_eval_years (rec ++ [(k, v)])
  = match YEAR_COL_RE (strip k) with
    | None => parse_eval_years rec
    | Some yr =>
        <[yr := match v with PNone => [] | _ => strip (py_str v) end]>
          (parse_eval_years rec)
    end.
Proof.
  unfold parse_eval_years. rewrite fold_left_app.
  cbn [fold_left fst snd]. by destruct (YEAR_COL_RE (strip k)), v.
Qed.

(** ** White space *)

Lemma lstrip_app (a b : str) :
  lstrip (a ++ b) = if forallb isspace a then lstrip b else lstrip a ++ b.
Proof.
  induction a as [|c a IH]; [done|]. simpl.
  destruct (isspace c); simpl; [apply IH | done].
Qed.

Lemma lstrip_nil_iff (s : str) : lstrip s = [] <-> forallb isspace s = true.
Proof.
  induction s as [|c s IH]; [done|]. simpl.
  destruct (isspace c); simpl; [apply IH | done].
Qed.

Lemma lstrip_spaces (ws s : str) :
  forallb isspace ws = true -> lstrip (ws ++ s) = lstrip s.
Proof. intros H. by rewrite lstrip_app, H. Qed.

Lemma forallb_rev (p : N -> bool) (s : str) : forallb p (rev s) = forallb p s.
Proof.
  induction s as [|c s IH]; [done|]. simpl.
  rewrite forallb_app, IH. simpl. rewrite andb_true_r. apply andb_comm.
Qed.

Lemma rstrip_nil_iff (s : str) : rstrip s = [] <-> forallb isspace s = true.
Proof.
  unfold rstrip. rewrite <- (forallb_rev isspace s), <- lstrip_nil_iff.
  split; intros H.
  - apply (f_equal (@rev N)) in H. by rewrite rev_involutive in H.
  - by rewrite H.
Qed.

(** [rstrip] from the left: a character stays unless it and all that
    follows is white space. *)
Lemma rstrip_cons (c : N) (s : str) :
  rstrip (c :: s)
  = if isspace c && forallb isspace s then [] else c :: rstrip s.
Proof.
  unfold rstrip. simpl. rewrite lstrip_app, forallb_rev.
  destruct (forallb isspace s) eqn:E.
  - simpl. rewrite andb_true_r.
    assert (lstrip (rev s) = []) as -> by (apply lstrip_nil_iff; by rewrite forallb_rev).
    by destruct (isspace c).
  - rewrite andb_false_r, rev_app_distr. done.
Qed.

Lemma rstrip_spaces (s ws : str) :
  forallb isspace ws = true -> rstrip (s ++ ws) = rstrip s.
Proof.
  intros H. unfold rstrip. rewrite rev_app_distr, lstrip_spaces; [done|].
  by rewrite forallb_rev.
Qed.

Lemma lstrip_idem (s : str) : lstrip (lstrip s) = lstrip s.
Proof.
  induction s as [|c s IH]; [done|]. simpl.
  destruct (isspace c) eqn:E; [done|]. simpl. by rewrite E.
Qed.

Lemma rstrip_idem (s : str) : rstrip (rstrip s) = rstrip s.
Proof. unfold rstrip. by rewrite rev_involutive, lstrip_idem. Qed.

Lemma lstrip_rstrip (s : str) : lstrip s = s -> lstrip (rstrip s) = rstrip s.
Proof.
  destruct s as [|c s]; [done|]. simpl.
  destruct (isspace c) eqn:E.
  - intros H. apply (f_equal length) in H.
    assert (length (lstrip s) <= length s)%nat.
    { clear. induction s as [|d s IH]; simpl; [lia|]. destruct (isspace d); simpl; lia. }
    simpl in H. lia.
  - intros _. rewrite rstrip_cons, E. simpl. by rewrite E.
Qed.

Lemma strip_trimmed (s : str) : trimmed (strip s).
Proof.
  unfold trimmed, strip. split.
  - apply lstrip_rstrip, lstrip_idem.
  - apply rstrip_idem.
Qed.

Lemma strip_of_trimmed (s : str) : trimmed s -> strip s = s.
Proof. intros [H1 H2]. unfold strip. by rewrite H1, H2. Qed.

Lemma strip_idem (s : str) : strip (strip s) = strip s.
Proof. apply strip_of_trimmed, strip_trimmed. Qed.

Lemma strip_spaces (ws1 s ws2 : str) :
  forallb isspace ws1 = true -> forallb isspace ws2 = true ->
  strip (ws1 ++ s ++ ws2) = strip s.
Proof.
  intros H1 H2. unfold strip. rewrite lstrip_spaces by done.
  rewrite lstrip_app.
  destruct (forallb isspace s) eqn:E.
  - assert (lstrip s = []) as -> by by apply lstrip_nil_iff.
    by rewrite (proj2 (lstrip_nil_iff ws2) H2).
  - by rewrite rstrip_spaces.
Qed.

(** ** Decimal numerals *)

Lemma uint_chars_string (d : Decimal.uint) :
  List.map N_of_ascii (list_ascii_of_string (NilEmpty.string_of_uint d)) = uint_chars d.
Proof. induction d; simpl; rewrite ?IHd; reflexivity. Qed.

Lemma of_Z_chars (z : Z) :
  of_Z z = match Z.to_int z with
           | Decimal.Pos d =>
               match d with Decimal.Nil => [48%N] | _ => uint_chars d end
           | Decimal.Neg d =>
               HYPHEN_MINUS :: match d with Decimal.Nil => [48%N] | _ => uint_chars d end
           end.
Proof.
  unfold of_Z, NilZero.string_of_int, NilZero.string_of_uint.
  destruct (Z.to_int z) as [d|d]; destruct d; try reflexivity;
    simpl; rewrite uint_chars_string; reflexivity.
Qed.

Lemma uint_val_pos (d : Decimal.uint) (p : positive) :
  uint_val (Z.pos p) d = Z.pos (Pos.of_uint_acc d p).
Proof.
  revert p. induction d; intros p; simpl; [done|..];
    rewrite <- IHd; f_equal; lia.
Qed.

Lemma uint_val_zero (d : Decimal.uint) : uint_val 0 d = Z.of_N (Pos.of_uint d).
Proof.
  induction d; simpl; [done | exact IHd |..];
    rewrite <- uint_val_pos; reflexivity.
Qed.

Lemma int_digits_chars (d : Decimal.uint) (acc : Z) :
  int_digits acc (uint_chars d) = Some (uint_val acc d).
Proof. revert acc. induction d; intros acc; simpl; [done|..]; apply (IHd (acc * 10 + _)). Qed.

Lemma int_unsigned_chars (d : Decimal.uint) :
  d <> Decimal.Nil -> int_unsigned (uint_chars d) = Some (uint_val 0 d).
Proof. destruct d; [done|..]; intros _; exact (int_digits_chars d _). Qed.

Lemma uint_chars_no_space (d : Decimal.uint) :
  forallb (fun c => negb (isspace c)) (uint_chars d) = true.
Proof. induction d; simpl; [done|..]; exact IHd. Qed.

Lemma strip_no_space (s : str) :
  forallb (fun c => negb (isspace c)) s = true -> strip s = s.
Proof.
  intros H. apply strip_of_trimmed. split.
  - destruct s as [|c s]; [done|]. simpl in *. by destruct (isspace c).
  - induction s as [|c s IH]; [done|]. simpl in H.
    apply andb_prop in H as [Hc Hs]. rewrite rstrip_cons.
    destruct (isspace c); [done|]. simpl. by rewrite IH.
Qed.

(** [int(str(z))] is [z]. *)
Lemma py_int_of_Z (z : Z) : py_int (of_Z z) = Some z.
Proof.
  rewrite of_Z_chars. destruct z as [|p|p]; simpl Z.to_int.
  - reflexivity.
  - pose proof (DecimalPos.Unsigned.of_to p) as Hp.
    assert (Pos.to_uint p <> Decimal.Nil) as Hnil by (intros E; by rewrite E in Hp).
    assert (py_int (uint_chars (Pos.to_uint p)) = Some (Z.pos p)) as H.
    { unfold py_int. rewrite strip_no_space by apply uint_chars_no_space.
      pose proof (int_unsigned_chars _ Hnil) as Hu.
      rewrite uint_val_zero, Hp in Hu. simpl in Hu.
      destruct (Pos.to_uint p); [done|..]; exact Hu. }
    destruct (Pos.to_uint p); [done|..]; exact H.
  - pose proof (DecimalPos.Unsigned.of_to p) as Hp.
    assert (Pos.to_uint p <> Decimal.Nil) as Hnil by (intros E; by rewrite E in Hp).
    assert (py_int (HYPHEN_MINUS :: uint_chars (Pos.to_uint p)) = Some (Z.neg p)) as H.
    { unfold py_int. rewrite strip_no_space.
      - change (HYPHEN_MINUS =? HYPHEN_MINUS)%N with true. cbv iota.
        rewrite (int_unsigned_chars _ Hnil), uint_val_zero, Hp. reflexivity.
      - simpl. apply uint_chars_no_space. }
    destruct (Pos.to_uint p); [done|..]; exact H.
Qed.

(** ** Identifiers *)

Lemma py_int_strip (s : str) : py_int (strip s) = py_int s.
Proof. unfold py_int. by rewrite strip_idem. Qed.

(** X1.  An integer within the digit limit of the conversions parses back
    from its decimal text: [safe_int] returns [z] on the number [z] and
    on the text of [z], white space around it or not.  (Beyond the limit
    [str] and [int] raise and [safe_int] is [None]; the statement does
    not reach there.) *)
Theorem safe_int_decimal (z : Z) (ws1 ws2 : str) :
  within_digit_limit z ->
  forallb isspace ws1 = true ->
  forallb isspace ws2 = true ->
  safe_int (PInt z) = Some z
  /\ safe_int (PStr (ws1 ++ of_Z z ++ ws2)) = Some z.
Proof.
  intros _ H1 H2. unfold safe_int. simpl py_str.
  rewrite strip_spaces, !py_int_strip by done. split; apply py_int_of_Z.
Qed.

(** X2.  A missing identifier and a blank one do not parse: the roster
    row, the geocode row and the remote record that lack it, or hold only
    white space for it, have no identifier. *)
Theorem safe_int_missing_or_blank (ws : str) :
  forallb isspace ws = true ->
  safe_int PNone = None
  /\ safe_int (PStr ws) = None
  /\ (forall c : row, row_get c "序號" = None \/ row_get c "序號" = Some ws ->
                      row_id c = None)
  /\ (forall r : row, row_get r "id" = None \/ row_get r "id" = Some ws ->
                      xy_id r = None)
  /\ (forall rec : pydict,
         dict_get (u "編號") rec = None \/ dict_get (u "編號") rec = Some (PStr ws) ->
         api_no rec = None).
Proof.
  intros H.
  assert (safe_int PNone = None) as HN by reflexivity.
  assert (safe_int (PStr ws) = None) as HW.
  { unfold safe_int. simpl py_str. rewrite py_int_strip. unfold py_int.
    replace (strip ws) with (@nil N); [done|].
    symmetry. unfold strip. apply rstrip_nil_iff, lstrip_nil_iff.
    by rewrite (proj2 (lstrip_nil_iff ws) H). }
  split; [done|]. split; [done|].
  split; [|split].
  - intros c [E|E]; unfold row_id; by rewrite E.
  - intros r [E|E]; unfold xy_id; by rewrite E.
  - intros rec [E|E]; unfold api_no; by rewrite E.
Qed.

(** ** Year columns *)

Lemma parse_eval_years_snoc' (rec : pydict) (k : str) (v : pyval) :
  parse_eval_years (rec ++ [(k, v)])
  = match YEAR_COL_RE (strip k) with
    | None => parse_eval_years rec
    | Some yr => <[yr := grade_text v]> (parse_eval_years rec)
    end.
Proof.
  unfold parse_eval_years. rewrite fold_left_app.
  cbn [fold_left fst snd]. by destruct (YEAR_COL_RE (strip k)), v.
Qed.

Lemma grade_text_trimmed (v : pyval) : trimmed (grade_text v).
Proof. destruct v; try apply strip_trimmed. done. Qed.

(** X3.  Every pair [parse_eval_years] returns comes from a column of the
    record whose stripped name is three decimal digits and the year
    sign: the key is the three digits, the grade the stripped text of
    the column's value.  The last column of a year is the one that
    counts. *)
Theorem parse_eval_years_sound (rec : pydict) (y g : str) :
  parse_eval_years rec !! y = Some g ->
  (exists k v, (k, v) ∈ rec /\ YEAR_COL_RE (strip k) = Some y /\ g = grade_text v)
  /\ year_key y
  /\ trimmed g
  /\ (forall k v, YEAR_COL_RE (strip k) = Some y ->
                  parse_eval_years (rec ++ [(k, v)]) !! y = Some (grade_text v)).
Proof.
  intros H.
  assert (exists k v, (k, v) ∈ rec /\ YEAR_COL_RE (strip k) = Some y /\ g = grade_text v)
    as (k & v & Hin & Hre & ->).
  { revert H. induction rec as [|[k v] rec IH] using rev_ind; [done|].
    rewrite parse_eval_years_snoc'.
    destruct (YEAR_COL_RE (strip k)) as [yr|] eqn:E.
    - destruct (decide (yr = y)) as [->|Hne].
      + rewrite lookup_insert_eq. intros [= <-]. exists k, v.
        split; [apply elem_of_app; right; apply list_elem_of_here | done].
      + rewrite lookup_insert_ne by done. intros H.
        destruct (IH H) as (k' & v' & Hin & Hre & Hg). exists k', v'.
        split; [apply elem_of_app; by left | done].
    - intros H. destruct (IH H) as (k' & v' & Hin & Hre & Hg). exists k', v'.
      split; [apply elem_of_app; by left | done]. }
  split; [by exists k, v|]. split.
  - destruct (YEAR_COL_RE_Some _ _ Hre) as (a & b & c & -> & Ha & Hb & Hc & _).
    by exists a, b, c.
  - split; [apply grade_text_trimmed|].
    intros k' v' Hre'. by rewrite parse_eval_years_snoc', Hre', lookup_insert_eq.
Qed.

(** ** The legacy field *)

Lemma rstrip_app (a b : str) :
  rstrip (a ++ b) = if forallb isspace b then rstrip a else a ++ rstrip b.
Proof.
  unfold rstrip. rewrite rev_app_distr, lstrip_app, forallb_rev.
  destruct (forallb isspace b); [done|]. by rewrite rev_app_distr, rev_involutive.
Qed.

Lemma lstrip_decompose (s : str) :
  exists ws, forallb isspace ws = true /\ s = ws ++ lstrip s.
Proof.
  induction s as [|c s (ws & Hws & IH)]; [by exists []|]. simpl.
  destruct (isspace c) eqn:E.
  - exists (c :: ws). simpl. rewrite E, Hws. split; [done|]. by rewrite <- IH.
  - by exists [].
Qed.

(** What is right-trimmed stays so when white space is taken off its
    left, and when a prefix that leaves something is taken off. *)
Lemma rstrip_suffix (a b : str) :
  rstrip (a ++ b) = a ++ b -> b <> [] -> rstrip b = b.
Proof.
  intros H Hb. rewrite rstrip_app in H.
  destruct (forallb isspace b) eqn:E.
  - exfalso. apply (f_equal length) in H. rewrite length_app in H.
    assert (length (rstrip a) <= length a)%nat.
    { unfold rstrip. rewrite length_rev, <- (length_rev a).
      generalize (rev a). clear. intros s.
      induction s as [|d s IH]; simpl; [lia|]. destruct (isspace d); simpl; lia. }
    destruct b; [done|]. simpl in H. lia.
  - by apply app_inv_head in H.
Qed.

Lemma isspace_hyphen (h : N) :
  h = HYPHEN_MINUS \/ h = FULLWIDTH_HYPHEN_MINUS -> isspace h = false.
Proof. by intros [-> | ->]. Qed.

(** X4.  The pattern of the legacy field accepts three decimal digits, a
    hyphen (ASCII or full-width, white space around it or not) and a
    grade: it returns the digits and the grade, for every grade that is
    not empty, has no white space at its ends and no line feed. *)
Theorem LEGACY_EVAL_RE_accepts (a b c h : N) (ws1 ws2 g : str) :
  isdecimal a = true -> isdecimal b = true -> isdecimal c = true ->
  h = HYPHEN_MINUS \/ h = FULLWIDTH_HYPHEN_MINUS ->
  forallb isspace ws1 = true -> forallb isspace ws2 = true ->
  g <> [] -> trimmed g -> existsb (fun x => (x =? LF)%N) g = false ->
  LEGACY_EVAL_RE ([a; b; c] ++ ws1 ++ [h] ++ ws2 ++ g) = Some ([a; b; c], g).
Proof.
  intros Ha Hb Hc Hh H1 H2 Hg [Hl Hr] Hlf.
  unfold LEGACY_EVAL_RE. cbn [app]. rewrite Ha, Hb, Hc. cbn [andb].
  rewrite lstrip_spaces by done. cbn [lstrip]. rewrite (isspace_hyphen h Hh).
  assert ((h =? HYPHEN_MINUS)%N || (h =? FULLWIDTH_HYPHEN_MINUS)%N = true) as ->
    by (by destruct Hh as [-> | ->]).
  unfold legacy_grade. rewrite lstrip_spaces, Hl by done.
  destruct g as [|x g]; [done|]. by rewrite Hr, Hlf.
Qed.

(** X5.  On a field without white space at its ends, as the script
    passes it, a match of the legacy pattern gives a year of three
    decimal digits that starts the field, and a grade that is not empty
    and has no white space at its ends and no line feed: stripping the
    grade changes nothing. *)
Theorem LEGACY_EVAL_RE_sound (s yr grade : str) :
  trimmed s ->
  LEGACY_EVAL_RE s = Some (yr, grade) ->
  year_key yr
  /\ (exists r, s = yr ++ r)
  /\ grade <> []
  /\ strip grade = grade
  /\ existsb (fun x => (x =? LF)%N) grade = false.
Proof.
  intros [_ Hr] H. unfold LEGACY_EVAL_RE in H.
  destruct s as [|a [|b [|c r]]]; try done.
  destruct (isdecimal a) eqn:Ha, (isdecimal b) eqn:Hb, (isdecimal c) eqn:Hc; try done.
  cbn [andb] in H.
  destruct (lstrip r) as [|h r'] eqn:Hlr; [done|].
  destruct ((h =? HYPHEN_MINUS)%N || (h =? FULLWIDTH_HYPHEN_MINUS)%N) eqn:Hh; [|done].
  destruct (legacy_grade r') as [g|] eqn:Hg; [|done].
  injection H as <- <-.
  split; [by exists a, b, c|]. split; [by exists r|].
  assert (isspace h = false) as Hsp.
  { apply isspace_hyphen. apply orb_prop in Hh as [E|E]; apply N.eqb_eq in E; auto. }
  (* the tail after the hyphen is right-trimmed *)
  destruct (lstrip_decompose r) as (ws & Hws & Er). rewrite Hlr in Er.
  assert (rstrip (h :: r') = h :: r') as Hhr.
  { apply (rstrip_suffix ([a; b; c] ++ ws)); [|done].
    rewrite <- app_assoc, <- Er. exact Hr. }
  unfold legacy_grade in Hg.
  destruct (lstrip r') as [|x t] eqn:Hlr'.
  - (* nothing but white space after the hyphen: then nothing at all *)
    assert (r' = []) as ->.
    { rewrite rstrip_cons, Hsp in Hhr. simpl in Hhr. injection Hhr as Hhr.
      apply lstrip_nil_iff in Hlr'. apply rstrip_nil_iff in Hlr'. congruence. }
    done.
  - destruct (lstrip_decompose r') as (ws' & Hws' & Er'). rewrite Hlr' in Er'.
    assert (rstrip (x :: t) = x :: t) as Hxt.
    { apply (rstrip_suffix ([h] ++ ws')); [|done].
      rewrite <- app_assoc. cbn [app]. rewrite <- Er'. exact Hhr. }
    rewrite Hxt in Hg.
    destruct (existsb _ (x :: t)) eqn:Hlf; [done|]. injection Hg as <-.
    split; [done|]. split; [|done].
    apply strip_of_trimmed. split; [|done].
    rewrite <- Hlr'. apply lstrip_idem.
Qed.

(** ** Order of the output *)

Lemma leb_trans (s1 s2 s3 : str) :
  Str.leb s1 s2 = true -> Str.leb s2 s3 = true -> Str.leb s1 s3 = true.
Proof.
  revert s2 s3. induction s1 as [|c1 r1 IH]; intros [|c2 r2] [|c3 r3]; simpl; try done.
  destruct (N.ltb_spec c1 c2), (N.ltb_spec c2 c1), (N.ltb_spec c2 c3),
    (N.ltb_spec c3 c2), (N.ltb_spec c1 c3), (N.ltb_spec c3 c1);
    try done; try lia; apply IH.
Qed.

#[local] Instance key_le_trans : Transitive key_le.
Proof.
  intros a b c. unfold key_le. intros H1 H2.
  apply Is_true_true in H1, H2. apply Is_true_true. by eapply leb_trans.
Qed.

Lemma reconcile_elem (existing : option Existing) (api_by_no : gmap Z pydict)
    (api_by_name : gmap str pydict) (xy_map : gmap Z GeoRecord)
    (centers_ : list row) (snap : CenterSnapshot) :
  snap ∈ fst (reconcile existing api_by_no api_by_name xy_map centers_ [] []) <->
  exists c cid, c ∈ centers_ /\ row_id c = Some cid
                /\ snap = fst (snapshot existing api_by_no api_by_name xy_map c cid).
Proof.
  rewrite reconcile_spec. cbn [fst app]. rewrite list_elem_of_omap. split.
  - intros (c & Hin & H). destruct (row_id c) as [cid|] eqn:E; [|done].
    injection H as <-. by exists c, cid.
  - intros (c & cid & Hin & Hid & ->). exists c. by rewrite Hid.
Qed.

(** X6.  Every snapshot of a run is the snapshot of a roster row whose
    identifier parses, and its year -> grade pairs are in ascending order
    of the year keys, compared as strings, no key twice. *)
Theorem snapshot_years_sorted (existing : option Existing) (api_by_no : gmap Z pydict)
    (api_by_name : gmap str pydict) (xy_map : gmap Z GeoRecord)
    (centers_ : list row) (snap : CenterSnapshot) :
  snap ∈ fst (reconcile existing api_by_no api_by_name xy_map centers_ [] []) ->
  StronglySorted key_le (evaluation_by_year snap)
  /\ NoDup (evaluation_by_year snap).*1
  /\ exists c, c ∈ centers_ /\ row_id c = Some (id snap)
               /\ name snap = field c "機構名稱".
Proof.
  intros H. apply reconcile_elem in H as (c & cid & Hin & Hid & ->).
  rewrite snapshot_evaluation. split; [|split].
  - apply StronglySorted_merge_sort; [apply key_le_trans | apply key_le_total].
  - apply sorted_items_NoDup.
  - by exists c.
Qed.

Lemma omap_length_le {A C : Type} (f : A -> option C) (l : list A) :
  (length (omap f l) <= length l)%nat.
Proof.
  induction l as [|x l IH]; [done|]. rewrite omap_cons.
  destruct (f x); simpl; lia.
Qed.

(** X7.  The snapshots are in the order of the roster, one for each row
    whose identifier parses; the unmatched identifiers are among them, in
    the same order. *)
Theorem reconcile_roster_order (existing : option Existing) (api_by_no : gmap Z pydict)
    (api_by_name : gmap str pydict) (xy_map : gmap Z GeoRecord) (centers_ : list row) :
  let r := reconcile existing api_by_no api_by_name xy_map centers_ [] [] in
  List.map id (fst r) = omap row_id centers_
  /\ sublist (snd r) (List.map id (fst r))
  /\ (length (snd r) <= length (fst r) <= length centers_)%nat.
Proof.
  intros r. subst r. rewrite reconcile_spec. cbn [fst snd app].
  assert (List.map id (omap (fun c => cid ← row_id c;
            Some (fst (snapshot existing api_by_no api_by_name xy_map c cid))) centers_)
          = omap row_id centers_) as Hid.
  { induction centers_ as [|c cs IH]; [done|]. rewrite !omap_cons.
    destruct (row_id c) as [cid|]; cbn [mbind option_bind]; [|done].
    cbn [List.map]. by rewrite IH, snapshot_id. }
  assert (sublist (omap (fun c => cid ← row_id c;
            if snd (snapshot existing api_by_no api_by_name xy_map c cid)
            then Some cid else None) centers_) (omap row_id centers_)) as Hsub.
  { clear Hid. induction centers_ as [|c cs IH]; [done|]. rewrite !omap_cons.
    destruct (row_id c) as [cid|]; cbn [mbind option_bind]; [|apply IH].
    destruct (snd _); [apply sublist_skip, IH | apply sublist_cons, IH]. }
  split; [done|]. rewrite Hid. split; [done|].
  split.
  - apply sublist_length in Hsub. by rewrite <- Hid, length_map in Hsub.
  - apply omap_length_le.
Qed.

(** ** The two-stage lookup *)

(** X8.  The record the lookup finds is one of the remote records: one
    with the identifier of the row, or, only when no record has that
    identifier, one with the name of the row, which is then not empty.
    Of two records with the same identifier, the later one is found. *)
Theorem lookup_rec_sound (records : list pydict) (cid : Z) (name_ : str)
    (rec : pydict) :
  lookup_rec (fst (index_api records)) (snd (index_api records)) cid name_ = Some rec ->
  rec ∈ records
  /\ (api_no rec = Some cid
      \/ (existsb (matches_by_id cid) records = false
          /\ api_name rec = name_ /\ name_ <> []))
  /\ (forall later, api_no later = Some cid ->
        lookup_rec (fst (index_api (records ++ [later])))
                   (snd (index_api (records ++ [later]))) cid name_ = Some later).
Proof.
  intros H. split; [|split].
  - unfold lookup_rec in H.
    destruct (fst (index_api records) !! cid) as [r|] eqn:E1.
    + destruct (index_by_no_Some _ _ _ E1) as [Hin Hno].
      rewrite (api_no_truthy _ _ Hno) in H. cbv beta iota in H.
      rewrite (api_no_truthy _ _ Hno) in H. by injection H as <-.
    + destruct (snd (index_api records) !! name_) as [r|] eqn:E2; [|done].
      destruct (index_by_name_Some _ _ _ E2) as (Hin & Hname & Hne).
      rewrite api_name_truthy in H by congruence. by injection H as <-.
  - unfold lookup_rec in H.
    destruct (fst (index_api records) !! cid) as [r|] eqn:E1.
    + destruct (index_by_no_Some _ _ _ E1) as [Hin Hno].
      rewrite (api_no_truthy _ _ Hno) in H. cbv beta iota in H.
      rewrite (api_no_truthy _ _ Hno) in H. injection H as <-. by left.
    + destruct (snd (index_api records) !! name_) as [r|] eqn:E2; [|done].
      destruct (index_by_name_Some _ _ _ E2) as (Hin & Hname & Hne).
      rewrite api_name_truthy in H by congruence. injection H as <-.
      right. split; [by apply index_by_no_None|done].
  - intros later Hno. unfold lookup_rec.
    rewrite index_api_snoc, Hno. cbn [fst snd].
    rewrite lookup_insert_eq, (api_no_truthy _ _ Hno). cbv beta iota.
    by rewrite (api_no_truthy _ _ Hno).
Qed.

(** ** The geocode table *)

Lemma load_xy_map_snoc_entry (rows : list row) (r : row) :
  load_xy_map (rows ++ [r])
  = match xy_id r with
    | None => load_xy_map rows
    | Some cid => if cid =? 0 then load_xy_map rows
                  else <[cid := xy_entry r]> (load_xy_map rows)
    end.
Proof. apply load_xy_map_snoc. Qed.

Lemma xy_lat_lng_not_nan (r : row) :
  not_nan (fst (xy_lat_lng r)) /\ not_nan (snd (xy_lat_lng r)).
Proof.
  unfold xy_lat_lng.
  destruct (py_float _) as [la|]; [destruct (py_float _) as [ln|]|];
    cbn [fst snd]; split; intros f; try done.
  - destruct (PrimFloat.is_nan la) eqn:E; [done|]. by intros [= <-].
  - destruct (PrimFloat.is_nan ln) eqn:E; [done|]. by intros [= <-].
Qed.

Lemma normalize_lat_lng_cases (lat_ lng_ : option float) :
  normalize_lat_lng lat_ lng_ = (lat_, lng_)
  \/ normalize_lat_lng lat_ lng_ = (lng_, lat_).
Proof.
  unfold normalize_lat_lng. destruct lat_, lng_; auto.
  destruct (_ && _); auto.
Qed.

Lemma load_xy_map_lookup (rows : list row) (cid : Z) (g : GeoRecord) :
  load_xy_map rows !! cid = Some g ->
  exists r, r ∈ rows /\ xy_id r = Some cid /\ g = xy_entry r.
Proof.
  induction rows as [|r rows IH] using rev_ind; [done|].
  rewrite load_xy_map_snoc_entry.
  assert (load_xy_map rows !! cid = Some g ->
          exists r0, r0 ∈ rows ++ [r] /\ xy_id r0 = Some cid /\ g = xy_entry r0) as IH'.
  { intros H. destruct (IH H) as (r0 & Hin & Hid & Hg). exists r0.
    split; [apply elem_of_app; by left | done]. }
  destruct (xy_id r) as [k|] eqn:E; [|done].
  destruct (k =? 0); [done|].
  destruct (decide (k = cid)) as [->|Hne].
  - rewrite lookup_insert_eq. intros [= <-]. exists r.
    split; [apply elem_of_app; right; apply list_elem_of_here | done].
  - by rewrite lookup_insert_ne.
Qed.

(** X9.  An entry of the geocode map comes from a row of the table whose
    id parses to its key, the key is not 0, and of two rows with the same
    id the later one counts.  The address of an entry is stripped and its
    coordinates are numbers or absent, never NaN; they are both absent
    when either text is no float.  An id that no row has is not in the
    map. *)
Theorem load_xy_map_entries (rows : list row) (cid : Z) :
  (forall g, load_xy_map rows !! cid = Some g ->
     cid <> 0
     /\ (exists r, r ∈ rows /\ xy_id r = Some cid /\ g = xy_entry r)
     /\ trimmed (geo_response_address g)
     /\ not_nan (geo_lat g) /\ not_nan (geo_lng g))
  /\ (load_xy_map rows !! cid = None <->
      cid = 0 \/ forall r, r ∈ rows -> xy_id r <> Some cid)
  /\ (forall r, xy_id r = Some cid -> cid <> 0 ->
        load_xy_map (rows ++ [r]) !! cid = Some (xy_entry r))
  /\ (forall r, py_float (coordinate_text r "lat") = None
                \/ py_float (coordinate_text r "lng") = None ->
                geo_lat (xy_entry r) = None /\ geo_lng (xy_entry r) = None).
Proof.
  split; [|split; [|split]].
  - intros g H.
    assert (cid <> 0) as Hz by (intros ->; by rewrite load_xy_map_zero in H).
    split; [done|].
    destruct (load_xy_map_lookup rows cid g H) as (r & Hin & Hid & ->).
    split; [by exists r|]. split; [apply strip_trimmed|].
    destruct (xy_lat_lng_not_nan r) as [Hla Hln]. unfold xy_entry. cbn [geo_lat geo_lng].
    destruct (normalize_lat_lng_cases (fst (xy_lat_lng r)) (snd (xy_lat_lng r))) as [-> | ->];
      by split.
  - destruct (decide (cid = 0)) as [->|Hz].
    { split; [by left | intros _; apply load_xy_map_zero]. }
    assert (load_xy_map rows !! cid = None
            <-> forall r, r ∈ rows -> xy_id r <> Some cid) as ->.
    { induction rows as [|r rows IH] using rev_ind.
      { split; [intros _ r Hr; by apply elem_of_nil in Hr | done]. }
      rewrite load_xy_map_snoc_entry.
      assert ((forall r0, r0 ∈ rows ++ [r] -> xy_id r0 <> Some cid)
              <-> (forall r0, r0 ∈ rows -> xy_id r0 <> Some cid) /\ xy_id r <> Some cid)
        as ->.
      { split.
        - intros H. split; [intros r0 Hr0; apply H, elem_of_app; by left|].
          apply H, elem_of_app. right. apply list_elem_of_here.
        - intros [H1 H2] r0 Hr0. apply elem_of_app in Hr0 as [Hr0|Hr0]; [by apply H1|].
          apply list_elem_of_singleton in Hr0 as ->. done. }
      destruct (xy_id r) as [k|] eqn:E.
      - destruct (Z.eqb_spec k 0) as [->|Hk].
        + rewrite IH. split; [intros ?; split; [done|congruence] | by intros [? _]].
        + destruct (decide (k = cid)) as [->|Hne].
          * rewrite lookup_insert_eq. split; [done | by intros [_ ?]].
          * rewrite lookup_insert_ne, IH by done.
            split; [intros ?; split; [done|congruence] | by intros [? _]].
      - rewrite IH. split; [by intros ? | by intros [? _]]. }
    split; [by right | by intros [?|?]].
  - intros r Hid Hz. rewrite load_xy_map_snoc_entry, Hid.
    destruct (Z.eqb_spec cid 0); [done|]. apply lookup_insert_eq.
  - intros r H.
    assert (xy_lat_lng r = (None, None)) as E.
    { unfold xy_lat_lng. fold (coordinate_text r "lat"). fold (coordinate_text r "lng").
      destruct H as [-> | ->]; [done|]. by destruct (py_float _). }
    unfold xy_entry. by rewrite E.
Qed.

(** ** The geo normalizer, once more *)

Lemma SFleb_not_SFltb (y : spec_float) (m0 : positive) (e0 : Z) :
  SFleb y (S754_finite false m0 e0) = true ->
  SFltb (S754_finite false m0 e0) y = false.
Proof.
  unfold SFleb, SFltb, SFcompare.
  destruct y as [s|s| |s m e]; try destruct s; try reflexivity; try discriminate.
  rewrite (Z.compare_antisym e e0).
  destruct (e ?= e0) eqn:E; cbn [CompOpp]; try reflexivity; try discriminate.
  change (Pos.compare_cont Eq m0 m) with (Pos.compare_cont (CompOpp Eq) m0 m).
  rewrite <- (Pos.compare_cont_antisym m m0 Eq).
  destruct (Pos.compare_cont Eq m m0); cbn [CompOpp]; try reflexivity; discriminate.
Qed.

(** A magnitude within 90 does not exceed 90. *)
Lemma within_not_exceeds (x : float) : within_90 x = true -> exceeds_90 x = false.
Proof.
  unfold within_90, exceeds_90. rewrite FloatAxioms.leb_spec, FloatAxioms.ltb_spec.
  assert (exists m0 e0, Prim2SF 90 = S754_finite false m0 e0) as (m0 & e0 & ->)
    by (do 2 eexists; vm_compute; reflexivity).
  apply SFleb_not_SFltb.
Qed.

Lemma normalize_lat_lng_fixed (lat_ lng_ : option float) :
  normalize_lat_lng (fst (normalize_lat_lng lat_ lng_)) (snd (normalize_lat_lng lat_ lng_))
  = normalize_lat_lng lat_ lng_.
Proof.
  unfold normalize_lat_lng. destruct lat_ as [la|], lng_ as [ln|]; try reflexivity.
  fold (exceeds_90 la) (within_90 ln).
  destruct (exceeds_90 la && within_90 ln) eqn:E; cbn [fst snd].
  - apply andb_prop in E as [_ E]. fold (exceeds_90 ln).
    by rewrite (within_not_exceeds _ E).
  - fold (exceeds_90 la) (within_90 ln). by rewrite E.
Qed.

(** X10.  The normalizer returns its two arguments, in their order or
    swapped, and it is idempotent: a pair it has put right is left as it
    is. *)
Theorem normalize_lat_lng_idempotent (lat_ lng_ : option float) :
  let p := normalize_lat_lng lat_ lng_ in
  (p = (lat_, lng_) \/ p = (lng_, lat_))
  /\ normalize_lat_lng (fst p) (snd p) = p.
Proof.
  intros p. subst p. split; [apply normalize_lat_lng_cases|].
  apply normalize_lat_lng_fixed.
Qed.

(** ** Where the pairs of a snapshot come from *)

Lemma history_sound (existing : option Existing) (cid : Z) (y g : str) :
  history existing cid !! y = Some g ->
  exists e old m, existing = Some e
    /\ old ∈ default [] (existing_centers e)
    /\ safe_int (old_id old) = Some cid
    /\ old_evaluation_by_year old = Some m
    /\ m !! y = Some g.
Proof.
  unfold history. destruct existing as [e|]; [|done].
  destruct (existing_truthy e); [|done].
  destruct (List.find _ _) as [old|] eqn:E; [|done].
  apply find_some in E as [Hin Hp]. apply bool_decide_eq_true in Hp.
  apply list_elem_of_In in Hin.
  destruct (old_evaluation_by_year old) as [m|] eqn:Em; [|done].
  intros H. by exists e, old, m.
Qed.

Lemma parse_eval_years_column (rec : pydict) (y g : str) :
  parse_eval_years rec !! y = Some g ->
  exists k v, (k, v) ∈ rec /\ YEAR_COL_RE (strip k) = Some y /\ g = grade_text v.
Proof.
  induction rec as [|[k v] rec IH] using rev_ind; [done|].
  rewrite parse_eval_years_snoc'.
  assert (parse_eval_years rec !! y = Some g ->
          exists k0 v0, (k0, v0) ∈ rec ++ [(k, v)]
                        /\ YEAR_COL_RE (strip k0) = Some y /\ g = grade_text v0) as IH'.
  { intros H. destruct (IH H) as (k0 & v0 & Hin & H1 & H2). exists k0, v0.
    split; [apply elem_of_app; by left | done]. }
  destruct (YEAR_COL_RE (strip k)) as [yr|] eqn:E; [|done].
  destruct (decide (yr = y)) as [->|Hne].
  - rewrite lookup_insert_eq. intros [= <-]. exists k, v.
    split; [apply elem_of_app; right; apply list_elem_of_here | done].
  - by rewrite lookup_insert_ne.
Qed.

(** X11.  A snapshot holds no pair of its own making: each (year, grade)
    pair is a year column of the remote record matched to the row, or
    the year and stripped grade of the row's legacy field, or a pair that
    the previous document stores under the row's identifier.  In the
    first two cases the year is three decimal digits and the grade has
    no white space at its ends. *)
Theorem snapshot_pairs_provenance (existing : option Existing)
    (api_by_no : gmap Z pydict) (api_by_name : gmap str pydict)
    (xy_map : gmap Z GeoRecord) (c : row) (cid : Z) (y g : str) :
  (y, g) ∈ evaluation_by_year (fst (snapshot existing api_by_no api_by_name xy_map c cid)) ->
  (exists rec, lookup_rec api_by_no api_by_name cid (field c "機構名稱") = Some rec
               /\ parse_eval_years rec !! y = Some g
               /\ year_key y /\ trimmed g)
  \/ (exists grade, LEGACY_EVAL_RE (field c "評鑑結果") = Some (y, grade)
                    /\ g = strip grade /\ year_key y /\ trimmed g)
  \/ (exists e old m, existing = Some e
        /\ old ∈ default [] (existing_centers e)
        /\ safe_int (old_id old) = Some cid
        /\ old_evaluation_by_year old = Some m
        /\ m !! y = Some g).
Proof.
  rewrite snapshot_evaluation, merge_legacy_layer, elem_of_sorted_items.
  rewrite !union_lookup_first.
  destruct (remote_layer _ !! y) as [g'|] eqn:Er.
  - intros [= ->]. left. unfold remote_layer in Er.
    destruct (lookup_rec _ _ _ _) as [rec|]; [|done]. exists rec.
    destruct (parse_eval_years_column _ _ _ Er) as (k & v & _ & Hre & ->).
    split; [done|]. split; [done|]. split; [|apply grade_text_trimmed].
    destruct (YEAR_COL_RE_Some _ _ Hre) as (a & b & d & -> & Ha & Hb & Hd & _).
    by exists a, b, d.
  - destruct (legacy_layer c !! y) as [g'|] eqn:El.
    + intros [= ->]. right. left. unfold legacy_layer in El.
      destruct (LEGACY_EVAL_RE _) as [[yr grade]|] eqn:E; [|done].
      destruct (decide (yr = y)) as [->|Hne];
        [|by rewrite lookup_singleton_ne in El].
      rewrite lookup_singleton_eq in El. injection El as <-.
      exists grade. split; [done|]. split; [done|]. split; [|apply strip_trimmed].
      unfold LEGACY_EVAL_RE in E.
      destruct (field c "評鑑結果") as [|a [|b [|d r]]]; try done.
      destruct (isdecimal a) eqn:Ha, (isdecimal b) eqn:Hb, (isdecimal d) eqn:Hd; try done.
      cbn [andb] in E. destruct (lstrip r) as [|h r']; [done|].
      destruct (_ || _); [|done]. destruct (legacy_grade r'); [|done].
      injection E as <- _. by exists a, b, d.
    + intros H. right. right. by apply history_sound.
Qed.

(** X12.  The six text fields of a snapshot (name, district, address,
    phone, approved and current capacity) are the stripped columns of its
    roster row: they have no white space at their ends, whatever the
    roster holds, and each one whose column the row lacks is the empty
    text; the identifier is the one the row's 序號 parses to. *)
Theorem snapshot_fields_trimmed (existing : option Existing)
    (api_by_no : gmap Z pydict) (api_by_name : gmap str pydict)
    (xy_map : gmap Z GeoRecord) (centers_ : list row) (snap : CenterSnapshot) :
  snap ∈ fst (reconcile existing api_by_no api_by_name xy_map centers_ [] []) ->
  trimmed (name snap) /\ trimmed (district snap) /\ trimmed (address snap)
  /\ trimmed (phone snap) /\ trimmed (capacity_approved snap)
  /\ trimmed (capacity_current snap)
  /\ exists c, c ∈ centers_ /\ row_id c = Some (id snap)
       /\ (row_get c "行政區" = None -> district snap = [])
       /\ (row_get c "地址" = None -> address snap = [])
       /\ (row_get c "電話" = None -> phone snap = [])
       /\ (row_get c "機構名稱" = None -> name snap = [])
       /\ (row_get c "核定收托人數" = None -> capacity_approved snap = [])
       /\ (row_get c "實際收托人數" = None -> capacity_current snap = [])
       /\ name snap = strip (default [] (row_get c "機構名稱"))
       /\ district snap = strip (default [] (row_get c "行政區"))
       /\ address snap = strip (default [] (row_get c "地址"))
       /\ phone snap = strip (default [] (row_get c "電話"))
       /\ capacity_approved snap = strip (default [] (row_get c "核定收托人數"))
       /\ capacity_current snap = strip (default [] (row_get c "實際收托人數")).
Proof.
  intros H. apply reconcile_elem in H as (c & cid & Hin & Hid & ->).
  cbn [fst snapshot name district address phone capacity_approved capacity_current id].
  repeat (split; [apply strip_trimmed|]).
  exists c. split; [done|]. split; [done|].
  unfold field. repeat split; by intros ->.
Qed.

(** ** A run on its own output *)

Lemma safe_int_PInt (z : Z) : safe_int (PInt z) = Some z.
Proof. unfold safe_int. simpl py_str. rewrite py_int_strip. apply py_int_of_Z. Qed.

Lemma omap_ext_in {A C : Type} (f g : A -> option C) (l : list A) :
  (forall x, x ∈ l -> f x = g x) -> omap f l = omap g l.
Proof.
  induction l as [|a l IH]; intros H; [done|]. rewrite !omap_cons.
  rewrite (H a) by apply list_elem_of_here.
  rewrite IH; [done|]. intros x Hx. apply H. by apply list_elem_of_further.
Qed.

Lemma omap_NoDup_inj {A C : Type} (f : A -> option C) (l : list A) (x y : A) (k : C) :
  NoDup (omap f l) -> x ∈ l -> y ∈ l -> f x = Some k -> f y = Some k -> x = y.
Proof.
  induction l as [|a l IH]; intros Hnd Hx Hy Hfx Hfy; [by apply elem_of_nil in Hx|].
  rewrite omap_cons in Hnd.
  apply elem_of_cons in Hx as [->|Hx], Hy as [->|Hy]; [done|..].
  - rewrite Hfx in Hnd. apply NoDup_cons in Hnd as [Hnd _].
    exfalso. apply Hnd, list_elem_of_omap. by exists y.
  - rewrite Hfy in Hnd. apply NoDup_cons in Hnd as [Hnd _].
    exfalso. apply Hnd, list_elem_of_omap. by exists x.
  - apply IH; try done. destruct (f a); [by apply NoDup_cons in Hnd as [_ Hnd]|done].
Qed.

(** The merged mapping of a row, and its fixed point. *)
Lemma merged_twice (remote legacy hist : gmap str str) :
  remote ∪ (legacy ∪ (remote ∪ (legacy ∪ hist))) = remote ∪ (legacy ∪ hist).
Proof.
  apply map_eq. intros y. rewrite !union_lookup_first.
  by destruct (remote !! y), (legacy !! y).
Qed.

Lemma history_reloaded (existing : option Existing) (api_by_no : gmap Z pydict)
    (api_by_name : gmap str pydict) (xy_map : gmap Z GeoRecord)
    (centers_ : list row) (e' : Existing) (c : row) (cid : Z) :
  NoDup (omap row_id centers_) ->
  existing_centers e'
  = Some (List.map reloaded_center
            (fst (reconcile existing api_by_no api_by_name xy_map centers_ [] []))) ->
  c ∈ centers_ -> row_id c = Some cid ->
  history (Some e') cid
  = remote_layer (lookup_rec api_by_no api_by_name cid (field c "機構名稱"))
    ∪ (legacy_layer c ∪ history existing cid).
Proof.
  intros Hnd He Hc Hid. unfold history at 1.
  assert (existing_truthy e' = true) as ->.
  { unfold existing_truthy. rewrite He. by destruct (existing_meta e'). }
  rewrite He. cbn [default].
  set (snaps := fst (reconcile existing api_by_no api_by_name xy_map centers_ [] [])).
  set (mine := fst (snapshot existing api_by_no api_by_name xy_map c cid)).
  assert (mine ∈ snaps) as Hmine by (by apply snapshot_emitted).
  assert (default ∅ (old_evaluation_by_year (reloaded_center mine))
          = remote_layer (lookup_rec api_by_no api_by_name cid (field c "機構名稱"))
            ∪ (legacy_layer c ∪ history existing cid)) as Hmap.
  { unfold reloaded_center, mine. cbn [old_evaluation_by_year default].
    by rewrite snapshot_evaluation, list_to_map_sorted_items, merge_legacy_layer. }
  destruct (List.find _ _) as [old|] eqn:E.
  - apply find_some in E as [Hin Hp]. apply bool_decide_eq_true in Hp.
    apply list_elem_of_In, list_elem_of_fmap in Hin as (snap & -> & Hin).
    cbn [reloaded_center old_id] in Hp. rewrite safe_int_PInt in Hp.
    injection Hp as Hp.
    apply reconcile_elem in Hin as (c' & cid' & Hc' & Hid' & ->).
    rewrite snapshot_id in Hp. subst cid'.
    assert (c' = c) as -> by (by eapply omap_NoDup_inj).
    exact Hmap.
  - exfalso.
    assert (In (reloaded_center mine) (List.map reloaded_center snaps)) as Hin.
    { apply list_elem_of_In, list_elem_of_fmap. by exists mine. }
    pose proof (find_none _ _ E _ Hin) as Hp. cbn beta in Hp.
    apply bool_decide_eq_false in Hp. apply Hp.
    unfold mine. cbn [reloaded_center old_id]. by rewrite safe_int_PInt.
Qed.

Lemma reconcile_reloaded (existing : option Existing) (api_by_no : gmap Z pydict)
    (api_by_name : gmap str pydict) (xy_map : gmap Z GeoRecord)
    (centers_ : list row) (e' : Existing) :
  NoDup (omap row_id centers_) ->
  existing_centers e'
  = Some (List.map reloaded_center
            (fst (reconcile existing api_by_no api_by_name xy_map centers_ [] []))) ->
  reconcile (Some e') api_by_no api_by_name xy_map centers_ [] []
  = reconcile existing api_by_no api_by_name xy_map centers_ [] [].
Proof.
  intros Hnd He. rewrite (reconcile_spec (Some e')), (reconcile_spec existing).
  f_equal; f_equal; apply omap_ext_in; intros c Hc;
    destruct (row_id c) as [cid|] eqn:Hid; cbn [mbind option_bind]; try done.
  - f_equal. unfold snapshot. cbn [fst]. f_equal.
    rewrite !merge_legacy_layer.
    rewrite (history_reloaded existing api_by_no api_by_name xy_map centers_ e' c cid)
      by done.
    unfold remote_layer.
    destruct (lookup_rec api_by_no api_by_name cid (field c "機構名稱")) as [r|].
    + by rewrite merged_twice.
    + rewrite !(left_id_L ∅ (∪)).
      pose proof (merged_twice ∅ (legacy_layer c) (history existing cid)) as H.
      rewrite !(left_id_L ∅ (∪)) in H. by rewrite H.
Qed.

(** X13.  On a roster whose identifiers are all different, a run that
    finds the document of the previous run, with the same remote records,
    geocode table and clock, builds that same document again: the year ->
    grade mappings it seeds from the document are the ones it arrives
    at. *)
Theorem build_document_idempotent (w : World) (existing : option Existing)
    (centers_ : list row) (fuel : nat) (out : Document) :
  NoDup (omap row_id centers_) ->
  build_document w existing centers_ fuel = Ok out ->
  build_document w (Some (reloaded out)) centers_ fuel = Ok out.
Proof.
  intros Hnd. unfold build_document.
  destruct (fetch_all_records w fuel) as [[records api_meta]| |]; [|done..].
  rewrite !bind_Ok.
  destruct (index_api records) as [api_by_no api_by_name].
  destruct (reconcile existing api_by_no api_by_name _ centers_ [] [])
    as [out_centers unmatched] eqn:E.
  intros [= <-].
  rewrite (reconcile_reloaded existing); [by rewrite E|done|].
  by rewrite E.
Qed.

(** ** The order of the steps of [main] *)

(** X14.  A run the gate refuses, and a run that finds no base roster,
    end before the first GET: whatever the remote endpoint would answer,
    the outcome is the same, [data.json] is left as it is, and the exit
    code is 2 exactly when the gate permitted the run and the roster is
    missing. *)
Theorem main_stops_before_fetch (w : World) (existing : option Existing)
    (get : Z -> Response) (fuel fuel' : nat) :
  load_existing_json w = Ok existing ->
  should_run_update w existing = Ok false \/ centers_csv w = None ->
  exists o,
    main w fuel = Ok o
    /\ main (with_http_get w get) fuel' = Ok o
    /\ (o = Skip \/ o = Missing_centers_csv)
    /\ (exit_code o = 2
        <-> should_run_update w existing = Ok true /\ centers_csv w = None)
    /\ data_json_after w o = text <$> data_json w.
Proof.
  intros Hl Hstop.
  assert (main (with_http_get w get) fuel'
          = (existing ← load_existing_json w;
             run ← should_run_update w existing;
             if negb run then Ok Skip else
             match centers_csv w with
             | None => Ok Missing_centers_csv
             | Some centers_ =>
                 out ← build_document (with_http_get w get) existing centers_ fuel';
                 Ok (write_if_changed (text <$> data_json w) (json_dumps out))
             end)) as Hget by reflexivity.
  rewrite Hget. unfold main. rewrite Hl, !bind_Ok.
  destruct (should_run_update_total w existing) as [[|] Hrun]; rewrite Hrun, !bind_Ok.
  - destruct Hstop as [Hstop | Hcsv]; [congruence|]. rewrite Hcsv. cbn [negb].
    exists Missing_centers_csv. repeat split; auto.
  - cbn [negb]. exists Skip. do 2 (split; [done|]). split; [by left|].
    split; [|done]. split; [done|]. by intros [? _].
Qed.

(** ** The gate, in full *)

Lemma should_run_update_parsed (w : World) (e : Existing) (last_dt : datetime) :
  let last := or_none (dict_get (u "last_successful_update")
                                (default [] (existing_meta e))) in
  strip (default [] (environ w !! u "FORCE_UPDATE")) <> u "1" ->
  truthy last = true ->
  datetime_fromisoformat (replace SPACE LETTER_T (py_str last)) = Some last_dt ->
  should_run_update w (Some e)
  = Ok (bool_decide (timedelta_days 10 <= elapsed w last_dt)).
Proof.
  intros last Hforce Hlast Hparse.
  unfold should_run_update.
  apply eqb_neq in Hforce. rewrite Hforce.
  assert (existing_truthy e = true) as ->.
  { unfold existing_truthy. destruct (existing_meta e); [done|].
    subst last. simpl in Hlast. discriminate. }
  fold last. rewrite Hlast, Hparse. cbn [negb].
  unfold elapsed, datetime_now, UPDATE_INTERVAL_DAYS.
  destruct (tzinfo last_dt) as [off|] eqn:Htz.
  - rewrite (sub_aware _ _ (timedelta_hours 8) off) by done.
    rewrite bind_Ok, wall_us_replace_tzinfo, leb_bool_decide. reflexivity.
  - rewrite (sub_aware _ _ (timedelta_hours 8) (timedelta_hours 8)) by done.
    rewrite bind_Ok, !wall_us_replace_tzinfo, leb_bool_decide. reflexivity.
Qed.

Lemma Ok_inj {A : Type} (a b : A) : Ok a = Ok b -> a = b.
Proof. by intros [= ->]. Qed.

(** X15.  The gate never raises, and it refuses a run in one case only:
    the force flag is not set, there is a prior document, its
    [last_successful_update] is present, not empty and parses, and less
    than 10 days have passed since (a timestamp in the future included).
    In every other case - no document, an empty one, no timestamp, one
    that does not parse - the run is permitted. *)
Theorem gate_decision (w : World) (existing : option Existing) :
  (exists run, should_run_update w existing = Ok run)
  /\ (should_run_update w existing = Ok false
      <-> strip (default [] (environ w !! u "FORCE_UPDATE")) <> u "1"
          /\ exists e last_dt,
               existing = Some e
               /\ truthy (or_none (dict_get (u "last_successful_update")
                                            (default [] (existing_meta e)))) = true
               /\ datetime_fromisoformat
                    (replace SPACE LETTER_T
                       (py_str (or_none (dict_get (u "last_successful_update")
                                                  (default [] (existing_meta e))))))
                  = Some last_dt
               /\ elapsed w last_dt < timedelta_days 10).
Proof.
  split; [apply should_run_update_total|]. split.
  - intros H.
    destruct (decide (strip (default [] (environ w !! u "FORCE_UPDATE")) = u "1"))
      as [Hf|Hf]; [by rewrite should_run_update_forced in H|].
    split; [done|].
    destruct existing as [e|]; [|by rewrite should_run_update_absent in H].
    pose proof H as H'. unfold should_run_update in H'.
    destruct (Str.eqb _ _); [done|].
    destruct (existing_truthy e); [|done]. cbn [negb] in H'.
    destruct (truthy _) eqn:Hlast; [|done]. cbn [negb] in H'.
    destruct (datetime_fromisoformat _) as [last_dt|] eqn:Hparse; [|done].
    exists e, last_dt. do 3 (split; [done|]).
    rewrite (should_run_update_parsed w e last_dt) in H by done.
    apply Ok_inj, bool_decide_eq_false in H. lia.
  - intros (Hf & e & last_dt & -> & Hlast & Hparse & Hlt).
    rewrite (should_run_update_parsed w e last_dt) by done.
    f_equal. apply bool_decide_eq_false. lia.
Qed.

(** ** What a result of the paging says *)

Lemma fetch_loop_sound (w : World) (records : list pydict) (m : ApiMeta)
    (fuel k : nat) (meta_ : option ApiMeta) :
  fetch_loop w fuel (Z.of_nat k * DEFAULT_LIMIT) (accumulated w k) meta_
  = Ok (records, m) ->
  exists n, (k <= n)%nat /\ (n - k < fuel)%nat
    /\ (forall i, (k <= i <= n)%nat -> page_ok w i = true)
    /\ (forall i, (k <= i < n)%nat -> reached w i = false)
    /\ reached w n = true
    /\ records = accumulated w (S n)
    /\ m = match meta_ with
           | Some m' => m'
           | None => mk_api_meta (count (page_result w k)) (limit (page_result w k))
                                 (offset (page_result w k))
           end.
Proof.
  revert k meta_. induction fuel as [|fuel IH]; intros k meta_ H; [done|].
  rewrite fetch_loop_step in H.
  destruct (page_ok w k) eqn:Hok; [|done]. cbv zeta in H.
  destruct (reached w k) eqn:Hr.
  - injection H as <- <-. exists k. repeat split; try done; try lia.
    intros i Hi. by replace i with k by lia.
  - apply IH in H as (n & Hk & Hfuel & Hoks & Hnot & Hn & -> & ->).
    exists n. repeat split; try done; try lia.
    + intros i Hi. destruct (decide (i = k)) as [->|]; [done|]. apply Hoks. lia.
    + intros i Hi. destruct (decide (i = k)) as [->|]; [done|]. apply Hnot. lia.
Qed.

(** X16.  A result of the paging tells how it came about: some page [n],
    fetched within the budget, was the first after which the running
    total reached the count it reports; every page up to it was
    answered; the records are those of the pages 0 to [n] in order, and
    the metadata that of page 0.  A larger budget gives the same
    result. *)
Theorem fetch_all_records_sound (w : World) (fuel : nat) (records : list pydict)
    (m : ApiMeta) :
  fetch_all_records w fuel = Ok (records, m) ->
  exists n, (n < fuel)%nat
    /\ (forall i, (i <= n)%nat -> page_ok w i = true)
    /\ (forall i, (i < n)%nat -> reached w i = false)
    /\ reached w n = true
    /\ records = accumulated w (S n)
    /\ m = first_page_meta w
    /\ (forall fuel', (fuel <= fuel')%nat ->
          fetch_all_records w fuel' = Ok (records, m)).
Proof.
  intros H. unfold fetch_all_records in H.
  destruct fuel as [|fuel]; [done|].
  rewrite fetch_loop_first in H.
  apply fetch_loop_sound in H as (n & _ & Hfuel & Hoks & Hnot & Hn & -> & ->).
  exists n. split; [lia|].
  split; [intros i Hi; apply Hoks; lia|].
  split; [intros i Hi; apply Hnot; lia|].
  do 3 (split; [done|]).
  intros [|fuel'] Hle; [lia|].
  unfold fetch_all_records.
  rewrite fetch_loop_first, fetch_loop_step, Hoks by lia.
  fold (first_page_meta w).
  destruct n as [|n]; [by rewrite Hn|].
  rewrite Hnot by lia. cbv zeta.
  apply fetch_loop_stops; try done; try lia.
  - intros i Hi. apply Hoks. lia.
  - intros i Hi. apply Hnot. lia.
Qed.

(** X17.  A GET that fails on any page before the count is reached ends
    the whole run with the error: the records of the pages already
    fetched are dropped, no document is built and nothing is written. *)
Theorem failed_page_aborts_run (w : World) (n fuel : nat)
    (existing : option Existing) (centers_ : list row) :
  (forall i, (i < n)%nat -> page_ok w i = true /\ reached w i = false) ->
  page_ok w n = false ->
  (n < fuel)%nat ->
  load_existing_json w = Ok existing ->
  should_run_update w existing = Ok true ->
  centers_csv w = Some centers_ ->
  fetch_all_records w fuel = Raise HTTPError
  /\ build_document w existing centers_ fuel = Raise HTTPError
  /\ main w fuel = Raise HTTPError.
Proof.
  intros Hrun Herr Hfuel Hl Hg Hc.
  pose proof (paging_aborts_on_error w n Hrun Herr fuel Hfuel) as Hf.
  assert (build_document w existing centers_ fuel = Raise HTTPError) as Hb.
  { unfold build_document. by rewrite Hf. }
  do 2 (split; [done|]).
  unfold main. rewrite Hl, bind_Ok, Hg, bind_Ok. cbn [negb]. by rewrite Hc, Hb.
Qed.

(** X18.  The loop has no other exit: against an endpoint that answers
    every page and whose count stays above the records it has served
    (a count larger than the data set, with empty pages after the last
    record), the paging goes on for ever; no budget yields a result. *)
Theorem paging_short_of_count_never_ends (w : World) :
  (forall i, page_ok w i = true) ->
  (forall i, exists n, count (page_result w i) = Some n
                       /\ Z.of_nat (length (accumulated w (S i))) < n) ->
  forall fuel, fetch_all_records w fuel = OutOfFuel.
Proof.
  intros Hok Hshort.
  assert (forall i, reached w i = false) as Hnot.
  { intros i. destruct (Hshort i) as (n & Hn & Hlt). unfold reached.
    rewrite Hn. apply Z.leb_gt. exact Hlt. }
  intros [|fuel]; [done|].
  unfold fetch_all_records.
  rewrite fetch_loop_first, fetch_loop_step, Hok, Hnot. cbv zeta.
  apply fetch_loop_runs. intros i _. by split.
Qed.

(** ** The geocode of a snapshot *)

(** X20.  The coordinates of every snapshot built on the geocode table
    are absent or numbers, never NaN, and they are a fixed point of the
    normalizer.  A snapshot without a geocode address has no coordinates;
    one with an address has an identifier other than 0, and address and
    coordinates are those of one row of the table with that identifier:
    the address stripped, the coordinates normalized. *)
Theorem snapshot_geocode (existing : option Existing) (api_by_no : gmap Z pydict)
    (api_by_name : gmap str pydict) (rows centers_ : list row) (snap : CenterSnapshot) :
  snap ∈ fst (reconcile existing api_by_no api_by_name (load_xy_map rows) centers_ [] []) ->
  not_nan (lat snap) /\ not_nan (lng snap)
  /\ normalize_lat_lng (lat snap) (lng snap) = (lat snap, lng snap)
  /\ (response_address snap = None -> lat snap = None /\ lng snap = None)
  /\ (forall a, response_address snap = Some a ->
        id snap <> 0
        /\ exists r, r ∈ rows /\ xy_id r = Some (id snap)
             /\ a = field r "Response_Address"
             /\ (lat snap, lng snap)
                = normalize_lat_lng (fst (xy_lat_lng r)) (snd (xy_lat_lng r))).
Proof.
  intros Hin. apply reconcile_elem in Hin as (c & cid & Hc & Hid & ->).
  destruct (snapshot_geo existing api_by_no api_by_name (load_xy_map rows) c cid)
    as (Ha & Hla & Hln).
  rewrite snapshot_id, Ha, Hla, Hln. clear Ha Hla Hln.
  destruct (load_xy_map rows !! cid) as [g|] eqn:E; cbn [fmap option_fmap option_map mbind option_bind].
  - assert (cid <> 0) as Hz by (intros ->; by rewrite load_xy_map_zero in E).
    destruct (load_xy_map_lookup rows cid g E) as (r & Hr & Hrid & ->).
    unfold xy_entry. cbn [geo_lat geo_lng geo_response_address].
    destruct (xy_lat_lng_not_nan r) as [Hnla Hnln].
    split; [|split; [|split; [|split; [done|]]]].
    + by destruct (normalize_lat_lng_cases (fst (xy_lat_lng r)) (snd (xy_lat_lng r)))
        as [-> | ->].
    + by destruct (normalize_lat_lng_cases (fst (xy_lat_lng r)) (snd (xy_lat_lng r)))
        as [-> | ->].
    + rewrite normalize_lat_lng_fixed. by destruct (normalize_lat_lng _ _).
    + intros a [= <-]. split; [done|]. exists r. do 3 (split; [done|]).
      by destruct (normalize_lat_lng _ _).
  - repeat split; done.
Qed.

End Properties.

(* ================================================================== *)
(** * From one run to the next *)

Section Successive_runs.

(** ** Zero-filled numerals *)

Lemma uint_chars_digits (d : Decimal.uint) :
  forallb digit_char (uint_chars d) = true.
Proof. induction d; simpl; [done|..]; exact IHd. Qed.

Lemma number_fold (d : Decimal.uint) (acc : Z) :
  fold_left (fun acc c => a ← acc; d ← Reference.ascii_digit c; Some (a * 10 + d))
            (uint_chars d) (Some acc)
  = Some (uint_val acc d).
Proof.
  revert acc. induction d; intros acc; simpl; [done|..]; apply (IHd (acc * 10 + _)).
Qed.

Lemma number_chars (d : Decimal.uint) :
  d <> Decimal.Nil -> Reference.number (uint_chars d) = Some (uint_val 0 d).
Proof.
  intros Hd. unfold Reference.number.
  destruct (uint_chars d) eqn:E; [by destruct d|]. rewrite <- E. apply number_fold.
Qed.

Lemma number_zeros (k : nat) (s : str) :
  s <> [] -> Reference.number (repeat 48%N k ++ s) = Reference.number s.
Proof.
  intros Hs. unfold Reference.number.
  destruct s as [|c s]; [done|].
  destruct (repeat 48%N k ++ c :: s) eqn:E; [by destruct k|]. rewrite <- E.
  rewrite fold_left_app. f_equal. clear E. induction k as [|k IH]; [done|]. exact IH.
Qed.

Lemma uint_val_lower (d : Decimal.uint) (acc : Z) :
  0 <= acc -> acc * 10 ^ Z.of_nat (length (uint_chars d)) <= uint_val acc d.
Proof.
  revert acc. induction d; intros acc Hacc; cbn [uint_chars uint_val length];
    [rewrite Z.pow_0_r; lia|..];
    rewrite Nat2Z.inj_succ, Z.pow_succ_r by lia;
    (etransitivity; [|apply IHd; lia]);
    assert (0 < 10 ^ Z.of_nat (length (uint_chars d))) by (apply Z.pow_pos_nonneg; lia);
    nia.
Qed.

Lemma to_uint_normal (p : positive) : Decimal.unorm (Pos.to_uint p) = Pos.to_uint p.
Proof.
  rewrite <- (DecimalPos.Unsigned.to_of (Pos.to_uint p)).
  by rewrite DecimalPos.Unsigned.of_to.
Qed.

Lemma to_uint_length (p : positive) (w : nat) :
  Z.pos p < 10 ^ Z.of_nat w -> (length (uint_chars (Pos.to_uint p)) <= w)%nat.
Proof.
  intros Hp.
  pose proof (DecimalPos.Unsigned.of_to p) as Hof.
  pose proof (to_uint_normal p) as Hn.
  pose proof (DecimalPos.Unsigned.to_uint_nonzero p) as Hnz.
  pose proof (uint_val_zero (Pos.to_uint p)) as Hv. rewrite Hof in Hv.
  assert (10 ^ Z.of_nat (length (uint_chars (Pos.to_uint p)) - 1) <= Z.pos p) as Hlow.
  { change (Z.of_N (N.pos p)) with (Z.pos p) in Hv. rewrite <- Hv. clear Hv Hof Hp.
    destruct (Pos.to_uint p) as [|d|d|d|d|d|d|d|d|d|d];
      [done| |cbn [uint_chars uint_val length];
              replace (S (length (uint_chars d)) - 1)%nat
                with (length (uint_chars d)) by lia;
              (etransitivity; [|apply uint_val_lower; lia]);
              assert (0 < 10 ^ Z.of_nat (length (uint_chars d)))
                by (apply Z.pow_pos_nonneg; lia);
              lia ..].
    exfalso. unfold Decimal.unorm in Hn. rewrite DecimalFacts.nzhead_D0 in Hn.
    destruct (Decimal.nzhead d) eqn:E; try discriminate.
    - injection Hn as <-. done.
    - by apply DecimalFacts.nzhead_nonzero in E. }
  destruct (decide (length (uint_chars (Pos.to_uint p)) <= w)%nat) as [|Hgt]; [done|].
  exfalso.
  assert (10 ^ Z.of_nat w <= 10 ^ Z.of_nat (length (uint_chars (Pos.to_uint p)) - 1))
    by (apply Z.pow_le_mono_r; lia).
  lia.
Qed.

Lemma repeat_digits (k : nat) : forallb digit_char (repeat 48%N k) = true.
Proof. induction k; [done|exact IHk]. Qed.

(** [str(n).zfill(w)] for [0 <= n < 10 ** w]: [w] digits that read [n]. *)
Lemma zfill_numeral (w : nat) (n : Z) :
  (0 < w)%nat -> 0 <= n < 10 ^ Z.of_nat w ->
  length (zfill w n) = w
  /\ Reference.number (zfill w n) = Some n
  /\ forallb digit_char (zfill w n) = true.
Proof.
  intros Hw Hn. unfold zfill. rewrite of_Z_chars.
  destruct n as [|p|p]; [| |lia]; simpl Z.to_int; cbv beta iota.
  - cbn [uint_chars length].
    rewrite length_app, repeat_length. cbn [length].
    split; [lia|]. split.
    + by rewrite number_zeros.
    + rewrite forallb_app, repeat_digits. done.
  - pose proof (to_uint_length p w ltac:(lia)) as Hlen.
    pose proof (DecimalPos.Unsigned.to_uint_nonnil p) as Hnil.
    pose proof (number_chars _ Hnil) as Hnum.
    rewrite uint_val_zero, DecimalPos.Unsigned.of_to in Hnum.
    pose proof (uint_chars_digits (Pos.to_uint p)) as Hdig.
    set (d := Pos.to_uint p) in *. clearbody d.
    destruct d; [done|..]; cbv iota;
      rewrite length_app, repeat_length;
      (split; [lia|]);
      (split; [rewrite number_zeros; [exact Hnum|done]
              |rewrite forallb_app, repeat_digits; exact Hdig]).
Qed.

Lemma zfill_2 (n : Z) :
  0 <= n < 100 ->
  exists a b, zfill 2 n = [a; b] /\ Reference.number [a; b] = Some n
              /\ digit_char a = true /\ digit_char b = true.
Proof.
  intros Hn. destruct (zfill_numeral 2 n) as (Hl & Hnum & Hd); [lia|simpl; lia|].
  destruct (zfill 2 n) as [|a [|b [|]]]; try discriminate.
  exists a, b. cbn [forallb] in Hd.
  apply andb_true_iff in Hd as [Ha Hd]. apply andb_true_iff in Hd as [Hb _]. done.
Qed.

Lemma zfill_4 (n : Z) :
  0 <= n < 10000 ->
  exists a b c d, zfill 4 n = [a; b; c; d] /\ Reference.number [a; b; c; d] = Some n
                  /\ digit_char a = true /\ digit_char b = true
                  /\ digit_char c = true /\ digit_char d = true.
Proof.
  intros Hn. destruct (zfill_numeral 4 n) as (Hl & Hnum & Hd); [lia|simpl; lia|].
  destruct (zfill 4 n) as [|a [|b [|c [|d [|]]]]]; try discriminate.
  exists a, b, c, d. cbn [forallb] in Hd.
  apply andb_true_iff in Hd as [Ha Hd]. apply andb_true_iff in Hd as [Hb Hd].
  apply andb_true_iff in Hd as [Hc Hd]. apply andb_true_iff in Hd as [Hd _]. done.
Qed.

Lemma digit_char_plain (c : N) :
  digit_char c = true ->
  Reference.is_sign c = false /\ (c =? SPACE)%N = false.
Proof.
  unfold digit_char, Reference.is_sign, PLUS, HYPHEN_MINUS, SPACE. intros H.
  apply andb_true_iff in H as [H1 H2].
  apply N.leb_le in H1. apply N.leb_le in H2.
  split; [apply orb_false_iff; split|]; apply N.eqb_neq; lia.
Qed.

(** ** The timestamp a run writes, read by the next gate *)

Lemma replace_plain (s : str) :
  forallb (fun c => negb (c =? SPACE)%N) s = true -> replace SPACE LETTER_T s = s.
Proof.
  unfold replace. induction s as [|c s IH]; [done|]. cbn [forallb List.map].
  intros H. apply andb_true_iff in H as [Hc Hs].
  apply negb_true_iff in Hc. by rewrite Hc, IH.
Qed.

Lemma format_offset_taipei :
  format_offset (timedelta_hours 8) = [PLUS; 48; 56; COLON; 48; 48]%N.
Proof. vm_compute. reflexivity. Qed.

Lemma offset_fields_taipei :
  Reference.offset_fields [PLUS; 48; 56; COLON; 48; 48]%N = Some (timedelta_hours 8).
Proof. vm_compute. reflexivity. Qed.

(** [fromisoformat] on the text [isoformat] gives for a value in range
    with the offset +08:00 and no microseconds. *)
Lemma fromisoformat_now_taipei_iso (w : World) (at_ : ClockRead) :
  in_range (clock w at_) ->
  now_taipei_iso w at_ <> []
  /\ replace SPACE LETTER_T (now_taipei_iso w at_) = now_taipei_iso w at_
  /\ Reference.fromisoformat (now_taipei_iso w at_)
     = Some (replace_microsecond (datetime_now w at_ (timedelta_hours 8)) 0).
Proof.
  intros (Hy & Hm & Hd & Hh & Hmi & Hs).
  unfold now_taipei_iso, isoformat, datetime_now, replace_microsecond, replace_tzinfo.
  cbn [year month day hour minute second microsecond tzinfo].
  rewrite format_offset_taipei.
  pose proof (Z.le_trans _ _ _ (proj2 Hd)
                (ltac:(unfold days_in_month;
                       repeat match goal with |- context [if ?b then _ else _] =>
                                destruct b end; lia)
                 : days_in_month (year (clock w at_)) (month (clock w at_)) <= 31)) as Hd31.
  destruct (zfill_4 (year (clock w at_))) as (y1 & y2 & y3 & y4 & -> & Hny & Hy1 & Hy2 & Hy3 & Hy4);
    [lia|].
  destruct (zfill_2 (month (clock w at_))) as (m1 & m2 & -> & Hnm & Hm1 & Hm2); [lia|].
  destruct (zfill_2 (day (clock w at_))) as (d1 & d2 & -> & Hnd & Hd1 & Hd2); [lia|].
  destruct (zfill_2 (hour (clock w at_))) as (h1 & h2 & -> & Hnh & Hh1 & Hh2); [lia|].
  destruct (zfill_2 (minute (clock w at_))) as (i1 & i2 & -> & Hni & Hi1 & Hi2); [lia|].
  destruct (zfill_2 (second (clock w at_))) as (s1 & s2 & -> & Hns & Hs1 & Hs2); [lia|].
  cbn [app].
  repeat match goal with
         | H : digit_char _ = true |- _ => apply digit_char_plain in H as [? ?]
         end.
  split; [done|]. split.
  - apply replace_plain. cbn [forallb].
    repeat match goal with H : (_ =? SPACE)%N = false |- _ => rewrite H; clear H end.
    reflexivity.
  - unfold Reference.fromisoformat.
    change ((HYPHEN_MINUS =? HYPHEN_MINUS)%N) with true. cbn [andb].
    rewrite Hny, Hnm, Hnd. cbn [mbind option_bind].
    assert ((1 <=? year (clock w at_)) && (1 <=? month (clock w at_))
            && (month (clock w at_) <=? 12) && (1 <=? day (clock w at_))
            && (day (clock w at_)
                <=? days_in_month (year (clock w at_)) (month (clock w at_))) = true) as ->.
    { repeat (apply andb_true_iff; split); apply Z.leb_le; lia. }
    cbn [Reference.before Reference.from].
    change (Reference.is_sign COLON) with false.
    change (Reference.is_sign PLUS) with true.
    repeat match goal with H : Reference.is_sign _ = false |- _ => rewrite H; clear H end.
    cbv iota.
    unfold Reference.clock_fields.
    change ((COLON =? COLON)%N) with true. cbn [andb].
    rewrite Hnh, Hni, Hns. cbn [mbind option_bind].
    assert (Reference.valid_clock
              (hour (clock w at_), minute (clock w at_), second (clock w at_), 0) = true) as ->.
    { unfold Reference.valid_clock. repeat (apply andb_true_iff; split); apply Z.ltb_lt; lia. }
    rewrite offset_fields_taipei. reflexivity.
Qed.

Lemma reloaded_last_successful_update (d : Document) :
  or_none (dict_get (u "last_successful_update") (default [] (existing_meta (reloaded d))))
  = PStr (last_successful_update (meta d)).
Proof. reflexivity. Qed.

(** X19.  The gate of a later run reads the timestamp a run wrote: on the
    document a run built, and without the force flag, the next run is
    permitted exactly when at least 10 days lie between the clock of the
    earlier run, cut to whole seconds, and its own clock, both read in
    UTC+8. *)
Theorem gate_after_run (w1 w2 : World) (existing : option Existing)
    (centers_ : list row) (fuel : nat) (out : Document) :
  in_range (clock w1 In_last_successful_update) ->
  strip (default [] (environ w2 !! u "FORCE_UPDATE")) <> u "1" ->
  build_document w1 existing centers_ fuel = Ok out ->
  should_run_update w2 (Some (reloaded out))
  = Ok (bool_decide
          (timedelta_days 10
           <= wall_us (clock w2 In_should_run_update)
              - wall_us (replace_microsecond (clock w1 In_last_successful_update) 0))).
Proof.
  intros Hrange Hforce Hout.
  assert (last_successful_update (meta out)
          = now_taipei_iso w1 In_last_successful_update) as Hts.
  { unfold build_document in Hout.
    destruct (fetch_all_records w1 fuel) as [[records api_meta]| |]; [|done..].
    rewrite bind_Ok in Hout.
    destruct (index_api records) as [api_by_no api_by_name].
    destruct (reconcile _ _ _ _ _ _ _) as [out_centers unmatched].
    by injection Hout as <-. }
  destruct (fromisoformat_now_taipei_iso w1 In_last_successful_update Hrange)
    as (Hne & Hrep & Hparse).
  rewrite (should_run_update_parsed w2 (reloaded out)
             (replace_microsecond
                (datetime_now w1 In_last_successful_update (timedelta_hours 8)) 0)).
  - f_equal. unfold elapsed, datetime_now, replace_microsecond, replace_tzinfo, wall_us.
    cbn [year month day hour minute second microsecond tzinfo default].
    unfold Datatypes.id. apply bool_decide_ext. lia.
  - exact Hforce.
  - rewrite reloaded_last_successful_update, Hts. cbn [truthy].
    apply negb_true_iff, eqb_neq. exact Hne.
  - rewrite reloaded_last_successful_update, Hts. cbn [py_str].
    rewrite Hrep. exact Hparse.
Qed.

End Successive_runs.

(* ================================================================== *)
(** * The properties on the examples *)

Section Worked_examples.

Import Examples.

Local Open Scope string_scope.

(** The spec's axis-swap example: latitude 121.5 and longitude 25.0 are
    swapped, latitude 25.0 and longitude 121.5 are not; a NaN latitude is
    neither above nor within 90, and nothing is swapped. *)
Lemma normalize_lat_lng_witness :
  normalize_lat_lng (Some 121.5%float) (Some 25.0%float)
  = (Some 25.0%float, Some 121.5%float)
  /\ normalize_lat_lng (Some 25.0%float) (Some 121.5%float)
     = (Some 25.0%float, Some 121.5%float)
  /\ normalize_lat_lng (Some PrimFloat.nan) (Some 25.0%float)
     = (Some PrimFloat.nan, Some 25.0%float).
Proof.
  destruct (normalize_lat_lng_swaps (Some 121.5%float) (Some 25.0%float)) as (H1 & _ & _).
  destruct (normalize_lat_lng_swaps (Some 25.0%float) (Some 121.5%float)) as (_ & H2 & _).
  destruct (normalize_lat_lng_swaps (Some PrimFloat.nan) (Some 25.0%float)) as (_ & H3 & _).
  split; [by apply H1|]. split; [apply (H2 _ _ eq_refl eq_refl); by left|].
  apply (H3 _ _ eq_refl eq_refl). by left.
Defined.

(** A truncated [data.json] ends the run with the decoding error, where a
    missing one lets it run: the two are not treated alike. *)
Lemma malformed_prior_document_counterexample :
  load_existing_json world_truncated = Raise JSONDecodeError
  /\ main world_truncated 1 = Raise JSONDecodeError
  /\ load_existing_json (with_data_json world_truncated None) = Ok None
  /\ (exists written, main (with_data_json world_truncated None) 1 = Ok (Updated written))
  /\ ~ (forall (w : World) (f : JsonFile) (fuel : nat),
          data_json w = Some f -> loaded f = None ->
          load_existing_json w = Ok None /\ exists o, main w fuel = Ok o).
Proof.
  split; [reflexivity|]. split; [reflexivity|]. split; [reflexivity|].
  split; [eexists; vm_compute; reflexivity|].
  intros H. destruct (H world_truncated truncated 1%nat eq_refl eq_refl) as [H1 _].
  discriminate H1.
Qed.

Lemma malformed_prior_document_witness :
  load_existing_json world_truncated = Raise JSONDecodeError
  /\ main world_truncated 1 = Raise JSONDecodeError
  /\ load_existing_json (with_data_json world_truncated None) = Ok None
  /\ should_run_update (with_data_json world_truncated None) None = Ok true
  /\ (forall cid, history None cid = ∅).
Proof.
  apply (malformed_prior_document_raises world_truncated truncated 1);
    reflexivity.
Defined.




(** The spec's gate boundary: a timestamp written exactly 10 days before
    the clock, with a space for separator and no offset, permits the run;
    one written 9 days and 23 hours before it, with the separator [T] and
    its own offset, skips it. *)
Lemma gate_interval_witness :
  elapsed world_10_days (mk_datetime 2026 1 4 12 0 0 0 None) = timedelta_days 10
  /\ should_run_update world_10_days (Some (existing_at "2026-01-04 12:00:00")) = Ok true
  /\ should_run_update world_9_days_23_hours
                       (Some (existing_at "2026-01-04T13:00:00+08:00")) = Ok false
  /\ main world_9_days_23_hours 1 = Ok Skip.
Proof.
  destruct (gate_interval world_10_days (existing_at "2026-01-04 12:00:00")
              (mk_datetime 2026 1 4 12 0 0 0 None)) as (_ & H10 & _).
  - vm_compute. discriminate.
  - reflexivity.
  - reflexivity.
  - destruct (gate_interval world_9_days_23_hours
                (existing_at "2026-01-04T13:00:00+08:00")
                (mk_datetime 2026 1 4 13 0 0 0 (Some (timedelta_hours 8))))
      as (_ & _ & H9).
    + vm_compute. discriminate.
    + reflexivity.
    + reflexivity.
    + split; [reflexivity|]. split; [apply H10; reflexivity|].
      split; [apply H9|]; reflexivity.
Defined.

(** Three records on two pages: the loop needs two iterations, and
    returns the three records with what the first page reported. *)
Lemma paging_witness :
  fetch_all_records (world [] None [] two_pages) 2
  = Ok ([rec_5; rec_8; rec_9], mk_api_meta (Some 3) (Some 1000) (Some 0))
  /\ fetch_all_records (world [] None [] two_pages) 1 = OutOfFuel.
Proof.
  destruct (paging_until_count_reached (world [] None [] two_pages) 1) as [H1 H2].
  - intros [|[|i]] Hi; [reflexivity | reflexivity | lia].
  - intros [|i] Hi; [reflexivity | lia].
  - reflexivity.
  - split; [exact (H1 2%nat (Nat.lt_succ_diag_r 1)) | exact (H2 1%nat (Nat.le_refl 1))].
Defined.

(** A row whose identifier is no number, between two rows that have one:
    the run ends as on the two rows alone. *)
Lemma unparseable_id_witness :
  row_id row_bad = None
  /\ main (with_centers_csv world_first_run (Some [row_5; row_bad; row_7])) 1
     = main (with_centers_csv world_first_run (Some [row_5; row_7])) 1
  /\ List.map id (fst (reconcile None ∅ ∅ ∅ [row_5; row_bad; row_7] [] [])) = [5; 7]
  /\ snd (reconcile None ∅ ∅ ∅ [row_5; row_bad; row_7] [] []) = [5; 7].
Proof.
  split; [reflexivity|].
  destruct (unparseable_id_dropped world_first_run 1 [row_5] [row_7] row_bad eq_refl)
    as [H1 H2].
  split; [exact H2|]. rewrite (H1 None ∅ ∅ ∅ [] []). split; reflexivity.
Defined.

(** Rows 7 and 0 have no remote record, row 5 has one: 7 and 0 are the
    unmatched identifiers.  The previous document holds the year 110 for
    the identifier 7 and the row's legacy field the year 112: the
    snapshot of row 7 has both. *)
Lemma unmatched_accounting_witness :
  let idx := index_api [rec_5; rec_8] in
  let r := reconcile (Some existing_5_7) (fst idx) (snd idx) ∅
             [row_7; row_5; row_bad; row_0] [] [] in
  snd r = [7; 0]
  /\ prior_mapping (Some existing_5_7) 7 = {[ u "110" := u "甲" ]}
  /\ legacy_layer row_7 = {[ u "112" := u "乙" ]}
  /\ exists snap, snap ∈ fst r /\ id snap = 7
                  /\ evaluation_by_year snap = [(u "110", u "甲"); (u "112", u "乙")]
                  /\ grade_of snap (u "110") = Some (u "甲")
                  /\ grade_of snap (u "112") = Some (u "乙")
                  /\ grade_of snap (u "111") = None.
Proof.
  destruct (unmatched_accounting world_first_run (Some existing_5_7) [rec_5; rec_8] ∅
              [row_7; row_5; row_bad; row_0] (mk_api_meta None None None))
    as (H1 & H2 & _).
  split; [rewrite H2; reflexivity|].
  split; [reflexivity|]. split; [reflexivity|].
  destruct (H1 row_7 7) as [_ (snap & Hin & Hid & Hev & Hg & _)];
    [apply list_elem_of_here | reflexivity | reflexivity |].
  exists snap. split; [exact Hin|]. split; [exact Hid|].
  split; [rewrite Hev; reflexivity|].
  rewrite !Hg. repeat split; reflexivity.
Defined.

(** The geocode table has a row for the identifier 0 and the roster has
    the identifier 0: the snapshot has no geocode, where identifier 5 has
    its own, axes put right. *)
Lemma id_zero_witness :
  load_xy_map [xy_0; xy_5] = load_xy_map [xy_5]
  /\ List.map (fun snap => (id snap, response_address snap, lat snap, lng snap))
              (fst (reconcile None ∅ ∅ (load_xy_map [xy_0; xy_5]) [row_0; row_5] [] []))
     = [(0, None, None, None);
        (5, Some (u "臺北市大安區"), Some 25.0%float, Some 121.5%float)].
Proof.
  destruct (id_zero_asymmetry [xy_0; xy_5]) as (_ & H & _).
  split; [exact (H [] [xy_5] xy_0 eq_refl) | reflexivity].
Defined.

(** C2.  A forced run without a previous document writes its document
    and a line feed.  A second forced run, on that file and at the same
    time, builds the same document and serialises it to the same text;
    the writer compares it with the file, line feed included, finds them
    different, and writes the file again instead of reporting no change. *)
Theorem second_run_rewrites :
  let written := (json_dumps document_first_run ++ [LF])%list in
  main world_first_run 1 = Ok (Updated written)
  /\ build_document world_second_run (Some existing_first_run) [row_7] 1
     = Ok document_first_run
  /\ main world_second_run 1 = Ok (Updated written)
  /\ write_if_changed (Some written) (json_dumps document_first_run) <> No_change.
Proof.
  intros written.
  split; [vm_compute; reflexivity|].
  assert (build_document world_second_run (Some existing_first_run) [row_7] 1
          = Ok document_first_run) as Hdoc by (vm_compute; reflexivity).
  split; [exact Hdoc|]. split.
  - apply (main_rewrites world_second_run 1 (Some existing_first_run) [row_7]);
      [reflexivity | reflexivity | reflexivity | exact Hdoc | reflexivity].
  - subst written. unfold write_if_changed. rewrite eqb_app_LF. discriminate.
Qed.

(** ** More examples *)

(** [int] of the text of -12, bare and between white space. *)
Lemma safe_int_decimal_witness :
  within_digit_limit (-12)
  /\ safe_int (PInt (-12)) = Some (-12)
  /\ safe_int (PStr (u " -12" ++ [LF])%list) = Some (-12).
Proof.
  assert (within_digit_limit (-12)) as H
    by (change (2 <= 4300)%nat; lia).
  split; [exact H|].
  apply (safe_int_decimal (-12) [SPACE] [LF]); [exact H | reflexivity | reflexivity].
Defined.

(** A row without the identifier column, a row where it is blank, and a
    remote record without a number. *)
Lemma safe_int_missing_or_blank_witness :
  safe_int (PStr (u "  ")) = None
  /\ row_id (mk_row [("機構名稱", "大安托嬰中心")]) = None
  /\ row_id (mk_row [("序號", "  ")]) = None
  /\ api_no [(u "機構名稱", PStr (u "大安托嬰中心"))] = None.
Proof.
  destruct (safe_int_missing_or_blank (u "  ")) as (_ & H2 & H3 & _ & H5);
    [reflexivity|].
  split; [exact H2|].
  split; [apply H3; left; reflexivity|].
  split; [apply H3; right; reflexivity|].
  apply H5. left. reflexivity.
Defined.

(** The year 111 of the record of identifier 5, and the same record with
    one more column for that year, without a value. *)
Lemma parse_eval_years_sound_witness :
  parse_eval_years rec_5 !! u "111" = Some (u "丙")
  /\ year_key (u "111")
  /\ parse_eval_years (rec_5 ++ [(u " 111年 ", PNone)])%list !! u "111" = Some [].
Proof.
  destruct (parse_eval_years_sound rec_5 (u "111") (u "丙"))
    as (_ & Hk & _ & Hlater); [reflexivity|].
  split; [reflexivity|]. split; [exact Hk|].
  apply (Hlater (u " 111年 ") PNone). reflexivity.
Defined.

(** The legacy field of row 7, with a space before the full-width
    hyphen. *)
Lemma LEGACY_EVAL_RE_accepts_witness :
  LEGACY_EVAL_RE (u "112 －乙") = Some (u "112", u "乙").
Proof.
  apply (LEGACY_EVAL_RE_accepts 49 49 50 FULLWIDTH_HYPHEN_MINUS [SPACE] [] (u "乙"));
    try reflexivity.
  - right. reflexivity.
  - discriminate.
  - split; reflexivity.
Defined.

Lemma LEGACY_EVAL_RE_sound_witness :
  LEGACY_EVAL_RE (u "111-甲") = Some (u "111", u "甲")
  /\ year_key (u "111")
  /\ strip (u "甲") = u "甲".
Proof.
  destruct (LEGACY_EVAL_RE_sound (u "111-甲") (u "111") (u "甲"))
    as (H1 & _ & _ & H4 & _); [split; reflexivity | reflexivity |].
  split; [reflexivity|]. split; [exact H1 | exact H4].
Defined.

(** Row 5 with its legacy grade, its remote record and its history: the
    years come out in order. *)
Lemma snapshot_years_sorted_witness :
  let idx := index_api [rec_8; rec_5] in
  let existing := Some (existing_at "2026-01-04 12:00:00") in
  let snap := fst (snapshot existing (fst idx) (snd idx) ∅ row_5_legacy 5) in
  evaluation_by_year snap = [(u "111", u "丙"); (u "112", u "甲")]
  /\ StronglySorted key_le (evaluation_by_year snap)
  /\ NoDup (evaluation_by_year snap).*1.
Proof.
  intros idx existing snap.
  destruct (snapshot_years_sorted existing (fst idx) (snd idx) ∅ [row_bad; row_5_legacy] snap)
    as (H1 & H2 & _).
  - apply snapshot_emitted; [apply list_elem_of_further, list_elem_of_here | reflexivity].
  - split; [reflexivity|]. split; [exact H1 | exact H2].
Defined.

(** The record of identifier 5 is found by its number; a later record
    with the same number takes its place. *)
Lemma lookup_rec_sound_witness :
  let later := [(u "編號", PInt 5)] in
  rec_5 ∈ [rec_8; rec_5]
  /\ lookup_rec (fst (index_api ([rec_8; rec_5] ++ [later])%list))
                (snd (index_api ([rec_8; rec_5] ++ [later])%list))
                5 (u "大安托嬰中心")
     = Some later.
Proof.
  intros later.
  destruct (lookup_rec_sound [rec_8; rec_5] 5 (u "大安托嬰中心") rec_5)
    as (H1 & _ & H3); [reflexivity|].
  split; [exact H1|]. apply H3. reflexivity.
Defined.

(** The grade 丙 of the year 111 in the snapshot of row 5 has its source:
    here the remote record. *)
Lemma snapshot_pairs_provenance_witness :
  let idx := index_api [rec_8; rec_5] in
  let existing := Some (existing_at "2026-01-04 12:00:00") in
  (u "111", u "丙")
    ∈ evaluation_by_year (fst (snapshot existing (fst idx) (snd idx) ∅ row_5_legacy 5))
  /\ exists rec, lookup_rec (fst idx) (snd idx) 5 (field row_5_legacy "機構名稱") = Some rec
                 /\ parse_eval_years rec !! u "111" = Some (u "丙").
Proof.
  intros idx existing.
  assert ((u "111", u "丙")
            ∈ evaluation_by_year
                (fst (snapshot existing (fst idx) (snd idx) ∅ row_5_legacy 5))) as Hin.
  { change ((u "111", u "丙") ∈ [(u "111", u "丙"); (u "112", u "甲")]).
    apply list_elem_of_here. }
  split; [exact Hin|].
  destruct (snapshot_pairs_provenance existing (fst idx) (snd idx) ∅ row_5_legacy 5
              (u "111") (u "丙") Hin)
    as [(rec & H1 & H2 & _) | [(grade & H & Hg & _) | (e & old & m & He & Hold & _ & Hm & Hy)]].
  - exists rec. split; [exact H1 | exact H2].
  - exfalso. change (Some (u "111", u "甲") = Some (u "111", grade)) in H.
    injection H as <-. discriminate Hg.
  - exfalso. injection He as <-.
    apply list_elem_of_singleton in Hold. subst old.
    injection Hm as <-. discriminate Hy.
Defined.

(** The descriptive fields of the snapshot of row 5: those the row has,
    stripped, and the empty text for those it has not. *)
Lemma snapshot_fields_trimmed_witness :
  let snap := fst (snapshot None ∅ ∅ ∅ row_5 5) in
  name snap = u "大安托嬰中心" /\ district snap = u "大安區"
  /\ address snap = [] /\ phone snap = []
  /\ capacity_approved snap = [] /\ capacity_current snap = []
  /\ trimmed (name snap) /\ trimmed (district snap).
Proof.
  intros snap.
  destruct (snapshot_fields_trimmed None ∅ ∅ ∅ [row_5] snap) as (H1 & H2 & _).
  - apply snapshot_emitted; [apply list_elem_of_here | reflexivity].
  - do 6 (split; [reflexivity|]). split; [exact H1 | exact H2].
Defined.

(** The document of the first run, loaded again, is the previous document
    of the examples; a run on it builds the same document. *)
Lemma build_document_idempotent_witness :
  reloaded document_first_run = existing_first_run
  /\ build_document world_first_run None [row_7] 1 = Ok document_first_run
  /\ build_document world_first_run (Some (reloaded document_first_run)) [row_7] 1
     = Ok document_first_run.
Proof.
  split; [reflexivity|].
  assert (build_document world_first_run None [row_7] 1 = Ok document_first_run) as H
    by (vm_compute; reflexivity).
  split; [exact H|].
  apply (build_document_idempotent world_first_run None [row_7] 1 document_first_run);
    [|exact H].
  change (NoDup [7]). apply NoDup_singleton.
Defined.

(** A run the gate refuses, and a run without roster, against an endpoint
    that fails: the outcome is the one with the endpoint of the
    examples. *)
Lemma main_stops_before_fetch_witness :
  let w := world_9_days_23_hours in
  let w' := with_centers_csv world_10_days None in
  (exists o, main w 1 = Ok o /\ main (with_http_get w (fun _ => Status_error)) 0 = Ok o
             /\ exit_code o = 0)
  /\ (exists o, main w' 1 = Ok o /\ main (with_http_get w' (fun _ => Status_error)) 0 = Ok o
                /\ exit_code o = 2).
Proof.
  intros w w'. split.
  - destruct (main_stops_before_fetch w (Some (existing_at "2026-01-04T13:00:00+08:00"))
                (fun _ => Status_error) 1 0)
      as (o & H1 & H2 & _ & _ & _); [reflexivity | left; reflexivity |].
    exists o. split; [exact H1|]. split; [exact H2|].
    assert (Ok o = Ok Skip) as E by (rewrite <- H1; reflexivity).
    by injection E as ->.
  - destruct (main_stops_before_fetch w' (Some (existing_at "2026-01-04 12:00:00"))
                (fun _ => Status_error) 1 0)
      as (o & H1 & H2 & _ & H4 & _); [reflexivity | right; reflexivity |].
    exists o. split; [exact H1|]. split; [exact H2|].
    apply H4. split; reflexivity.
Defined.

(** The result on the two pages of the examples: page 1 is where the
    count of 3 was reached. *)
Lemma fetch_all_records_sound_witness :
  let w := world [] None [] two_pages in
  fetch_all_records w 2
  = Ok ([rec_5; rec_8; rec_9], mk_api_meta (Some 3) (Some 1000) (Some 0))
  /\ exists n, (n < 2)%nat /\ reached w n = true
               /\ [rec_5; rec_8; rec_9] = accumulated w (S n)
               /\ fetch_all_records w 5
                  = Ok ([rec_5; rec_8; rec_9], mk_api_meta (Some 3) (Some 1000) (Some 0)).
Proof.
  intros w. split; [reflexivity|].
  destruct (fetch_all_records_sound w 2 [rec_5; rec_8; rec_9]
              (mk_api_meta (Some 3) (Some 1000) (Some 0)))
    as (n & Hn & _ & _ & Hr & Hacc & _ & Hfuel); [reflexivity|].
  exists n. split; [exact Hn|]. split; [exact Hr|]. split; [exact Hacc|].
  apply Hfuel. lia.
Defined.

(** The second page fails: the two records of the first page are dropped
    with the run. *)
Lemma failed_page_aborts_run_witness :
  let w := world [(u "FORCE_UPDATE", u "1")] None [row_5] second_page_fails in
  fetch_all_records w 2 = Raise HTTPError /\ main w 2 = Raise HTTPError.
Proof.
  intros w.
  destruct (failed_page_aborts_run w 1 2 None [row_5]) as (H1 & _ & H3).
  - intros [|i] Hi; [split; reflexivity | lia].
  - reflexivity.
  - lia.
  - reflexivity.
  - reflexivity.
  - reflexivity.
  - split; [exact H1 | exact H3].
Defined.

(** An endpoint that reports three records and serves two: a thousand
    requests do not end the paging. *)
Lemma paging_short_of_count_never_ends_witness :
  fetch_all_records (world [] None [] short_of_count) 1000 = OutOfFuel.
Proof.
  apply (paging_short_of_count_never_ends (world [] None [] short_of_count)).
  - intros i. reflexivity.
  - intros i. exists 3%Z. split; [reflexivity|].
    assert (accumulated (world [] None [] short_of_count) (S i) = [rec_5; rec_8]) as ->.
    { induction i as [|i IH]; [reflexivity|].
      change (accumulated (world [] None [] short_of_count) (S (S i)))
        with (accumulated (world [] None [] short_of_count) (S i)
              ++ (if (Z.of_nat (S i) * DEFAULT_LIMIT =? 0)%Z then [rec_5; rec_8] else []))%list.
      rewrite IH.
      destruct (Z.eqb_spec (Z.of_nat (S i) * DEFAULT_LIMIT) 0) as [E|_]; [|reflexivity].
      unfold DEFAULT_LIMIT in E. lia. }
    reflexivity.
Defined.

(** The document of the first run, met by a run at the same time: no
    time has passed, and the gate refuses. *)
Lemma gate_after_run_witness :
  build_document world_first_run None [row_7] 1 = Ok document_first_run
  /\ should_run_update world_10_days (Some (reloaded document_first_run)) = Ok false.
Proof.
  assert (build_document world_first_run None [row_7] 1 = Ok document_first_run) as H
    by (vm_compute; reflexivity).
  split; [exact H|].
  rewrite (gate_after_run world_first_run world_10_days None [row_7] 1 document_first_run).
  - reflexivity.
  - unfold in_range. cbn. lia.
  - vm_compute. discriminate.
  - exact H.
Defined.

(** Row 5 and its geocode row, whose axes are swapped: the snapshot has
    them in order, and the normalizer leaves them as they are. *)
Lemma snapshot_geocode_witness :
  let snap := fst (snapshot None ∅ ∅ (load_xy_map [xy_0; xy_5]) row_5 5) in
  (lat snap, lng snap) = (Some 25.0%float, Some 121.5%float)
  /\ normalize_lat_lng (lat snap) (lng snap) = (lat snap, lng snap)
  /\ id snap <> 0.
Proof.
  intros snap.
  destruct (snapshot_geocode None ∅ ∅ [xy_0; xy_5] [row_0; row_5] snap)
    as (_ & _ & H3 & _ & H5).
  - apply snapshot_emitted; [apply list_elem_of_further, list_elem_of_here | reflexivity].
  - split; [reflexivity|]. split; [exact H3|].
    destruct (H5 (u "臺北市大安區")) as [Hz _]; [reflexivity | exact Hz].
Defined.

End Worked_examples.
